(** * The MCP bridge server (main.py): a shallow embedding and its properties

    The server exposes two POST endpoints.  [create_vm] submits a fixed
    KubeVirt VirtualMachine manifest through the Kubernetes custom-objects
    API; [launch_aap_job] resolves a job template name to its identifier with
    one GET on the automation controller and then launches it with one POST.

    The endpoints are embedded as computations in a small monad that reads
    the module-level configuration, asks an oracle (the remote services) for
    the outcome of every outbound call, records the calls in order, and
    either returns a value or raises a Python exception. *)

From Stdlib Require Import String Ascii ZArith List Bool Lia DecimalString.
Import ListNotations.
Local Open Scope string_scope.
Local Open Scope Z_scope.
#[local] Set Warnings "-register-all".

(** ** Values *)

(** What [response.json()] yields and what the endpoints return.  JSON
    numbers are restricted to integers (the controller's "count", "id" and
    "job" fields are integers); a Python dict is the list of its items. *)
Inductive json : Type :=
| JNull
| JBool (b : bool)
| JInt (n : Z)
| JStr (s : string)
| JList (l : list json)
| JDict (d : list (string * json)).

(** The exceptions that the program raises, catches or lets through. *)
Inductive exn : Type :=
| HTTPException (status_code : Z) (detail : string)   (* fastapi *)
| RequestException (text : string)   (* requests.exceptions.*, text = str(e) *)
| ApiException (status : Z) (reason : string)   (* kubernetes.client.rest *)
| KeyError
| IndexError
| TypeError
| AttributeError
| OtherError (name : string).

Definition result (A : Type) : Type := (exn + A)%type.

(** ** Python built-ins used by the program *)

Module Py.

(** [str(n)] for an int. *)
Definition str_int (n : Z) : string := NilZero.string_of_int (Z.to_int n).

(** [not x] for an [Optional[str]]: None and the empty string are falsy. *)
Definition not_ (x : option string) : bool :=
  match x with
  | None => true
  | Some "" => true
  | Some _ => false
  end.

(** [f"{x}"] for an [Optional[str]]. *)
Definition format_opt (x : option string) : string :=
  match x with
  | None => "None"
  | Some s => s
  end.

Fixpoint lookup (k : string) (d : list (string * json)) : option json :=
  match d with
  | [] => None
  | (k', v) :: d' => if String.eqb k k' then Some v else lookup k d'
  end.

(** [x[k]] with a string key. *)
Definition getitem (x : json) (k : string) : result json :=
  match x with
  | JDict d =>
      match lookup k d with
      | Some v => inr v
      | None => inl KeyError
      end
  | _ => inl TypeError
  end.

(** [x[0]]. *)
Definition getitem0 (x : json) : result json :=
  match x with
  | JList (v :: _) => inr v
  | JList [] => inl IndexError
  | JStr (String c _) => inr (JStr (String c ""))
  | JStr "" => inl IndexError
  | JDict _ => inl KeyError
  | _ => inl TypeError
  end.

(** [x.get(k)]: only a dict has the method. *)
Definition get (x : json) (k : string) : result json :=
  match x with
  | JDict d =>
      match lookup k d with
      | Some v => inr v
      | None => inr JNull
      end
  | _ => inl AttributeError
  end.

(** [x == n] for an int literal [n]; a bool is an int in Python. *)
Definition eq_int (x : json) (n : Z) : bool :=
  match x with
  | JInt m => m =? n
  | JBool b => (if b then 1 else 0) =? n
  | _ => false
  end.

(** [x > n] for an int literal [n]. *)
Definition gt_int (x : json) (n : Z) : result bool :=
  match x with
  | JInt m => inr (n <? m)
  | JBool b => inr (n <? (if b then 1 else 0))
  | _ => inl TypeError
  end.

Section Str.
(** Python's [repr] of a list or dict, which [str] falls back on. *)
Variable repr_container : json -> string.

(** [f"{x}"], that is [str(x)]. *)
Definition str (x : json) : string :=
  match x with
  | JNull => "None"
  | JBool true => "True"
  | JBool false => "False"
  | JInt n => str_int n
  | JStr s => s
  | JList _ | JDict _ => repr_container x
  end.
End Str.

(** [x[k1][k2]...] for string keys. *)
Fixpoint path (ks : list string) (x : json) : result json :=
  match ks with
  | [] => inr x
  | k :: ks' =>
      match getitem x k with
      | inr v => path ks' v
      | inl e => inl e
      end
  end.

(** [list(x.keys())] for a dict. *)
Definition keys (x : json) : option (list string) :=
  match x with
  | JDict d => Some (map fst d)
  | _ => None
  end.

(** [needle in haystack] for two strings. *)
Fixpoint contains (needle haystack : string) : bool :=
  String.prefix needle haystack ||
  match haystack with
  | "" => false
  | String _ rest => contains needle rest
  end.

End Py.

(** ** The outbound calls and the remote services *)

Definition dict_str : Type := list (string * string).

(** A [requests.Response], as far as the program looks at it. [body] is the
    parsed JSON body, or the text of the decoding error when the body is not
    JSON. *)
Record Response : Type := {
  status_code : Z;
  reason : string;
  url : string;
  body : string + json
}.

Inductive call : Type :=
| requests_get (url : string) (headers params : dict_str) (verify : bool)
| requests_post (url : string) (headers : dict_str) (json_ : json)
    (verify : bool)
| create_namespaced_custom_object
    (group version namespace plural : string) (body : json).

(** A requests call returns a response or raises a [RequestException]
    (connection error, timeout, ...) with the given text. *)
Inductive http_outcome : Type :=
| Responds (r : Response)
| Fails (text : string).

Inductive k8s_outcome : Type :=
| Created (obj : json)
| Rejected (status : Z) (reason : string)   (* ApiException *)
| Broken (name : string).   (* any other exception of the client *)

(** The remote services: the outcome of a call may depend on the calls made
    before it (oldest first). *)
Record World : Type := {
  http : list call -> call -> http_outcome;
  k8s : list call -> call -> k8s_outcome
}.

(** The module-level configuration, read once from the environment. *)
Record Config : Type := {
  AAP_CONTROLLER_URL : option string;
  AAP_API_TOKEN : option string
}.

(** [Response.raise_for_status] of the requests library: HTTPError, a
    [RequestException], for the 4xx and 5xx status codes only. *)
Definition raise_for_status (r : Response) : result unit :=
  if (400 <=? status_code r) && (status_code r <? 500) then
    inl (RequestException
           (Py.str_int (status_code r) ++ " Client Error: " ++ reason r
            ++ " for url: " ++ url r))
  else if (500 <=? status_code r) && (status_code r <? 600) then
    inl (RequestException
           (Py.str_int (status_code r) ++ " Server Error: " ++ reason r
            ++ " for url: " ++ url r))
  else inr tt.

(** [Response.json]: the decoding error is a [RequestException]. *)
Definition Response_json (r : Response) : result json :=
  match body r with
  | inr j => inr j
  | inl text => inl (RequestException text)
  end.

(** ** The monad of endpoint computations *)

Definition M (A : Type) : Type :=
  Config -> World -> list call -> result A * list call.

Definition ret {A} (a : A) : M A := fun _ _ t => (inr a, t).

Definition raise {A} (e : exn) : M A := fun _ _ t => (inl e, t).

Definition bind {A B} (c : M A) (k : A -> M B) : M B :=
  fun cfg w t =>
    match c cfg w t with
    | (inr a, t') => k a cfg w t'
    | (inl e, t') => (inl e, t')
    end.

Definition lift {A} (r : result A) : M A := fun _ _ t => (r, t).

Definition global {A} (field : Config -> A) : M A :=
  fun cfg _ t => (inr (field cfg), t).

(** [try: c except <class> as e: h e], where [h] is [None] on the exceptions
    that are not of the class. *)
Definition try_except {A} (c : M A) (h : exn -> option (M A)) : M A :=
  fun cfg w t =>
    match c cfg w t with
    | (inr a, t') => (inr a, t')
    | (inl e, t') =>
        match h e with
        | Some k => k cfg w t'
        | None => (inl e, t')
        end
    end.

Definition perform_http (c : call) : M Response :=
  fun _ w t =>
    match http w t c with
    | Responds r => (inr r, (t ++ [c])%list)
    | Fails text => (inl (RequestException text), (t ++ [c])%list)
    end.

Definition perform_k8s (c : call) : M json :=
  fun _ w t =>
    match k8s w t c with
    | Created obj => (inr obj, (t ++ [c])%list)
    | Rejected status reason => (inl (ApiException status reason), (t ++ [c])%list)
    | Broken name => (inl (OtherError name), (t ++ [c])%list)
    end.

Declare Scope py_scope.
Delimit Scope py_scope with py.
Notation "x <- c ;; k" := (bind c (fun x => k))
  (at level 61, c at next level, right associativity) : py_scope.
Notation "c ;;; k" := (bind c (fun _ => k))
  (at level 61, right associativity) : py_scope.

Definition as_RequestException {A} (h : string -> M A) (e : exn)
  : option (M A) :=
  match e with
  | RequestException text => Some (h text)
  | _ => None
  end.

Definition as_ApiException {A} (h : Z -> string -> M A) (e : exn)
  : option (M A) :=
  match e with
  | ApiException status reason => Some (h status reason)
  | _ => None
  end.

(** Running a request handler from an empty record of calls. *)
Definition run {A} (c : M A) (cfg : Config) (w : World)
  : result A * list call :=
  c cfg w [].

(** ** Pydantic models *)

Record AAPJob : Type := {
  job_template_name : string;
  extra_vars : list (string * json)
}.

Record VirtualMachine : Type := {
  vm_name : string;
  namespace : string
}.

(** ** The program *)

Section Program.

(** Python's [repr] of lists and dicts, used when an f-string formats a
    JSON value that is a container. *)
Variable repr_container : json -> string.

Local Open Scope py_scope.

Definition get_job_template_id (template_name : string) (headers : dict_str)
  : M json :=
  controller <- global AAP_CONTROLLER_URL ;;
  if Py.not_ controller then
    raise (HTTPException 500 "AAP_CONTROLLER_URL is not configured.")
  else
    let url := Py.format_opt controller ++ "/api/v2/job_templates/" in
    let query_params := [("name", template_name)] in
    try_except
      (response <- perform_http
                     (requests_get url headers query_params false) ;;
       lift (raise_for_status response) ;;;
       data <- lift (Response_json response) ;;
       count <- lift (Py.getitem data "count") ;;
       if Py.eq_int count 1 then
         results <- lift (Py.getitem data "results") ;;
         first <- lift (Py.getitem0 results) ;;
         lift (Py.getitem first "id")
       else
         count' <- lift (Py.getitem data "count") ;;
         more <- lift (Py.gt_int count' 1) ;;
         if more : bool then
           raise (HTTPException 409
                    ("Conflict: Multiple job templates found with name '"
                     ++ template_name ++ "'."))
         else
           raise (HTTPException 404
                    ("Not Found: No job template found with name '"
                     ++ template_name ++ "'.")))
      (as_RequestException (fun e =>
         raise (HTTPException 503
                  ("Service Unavailable: Could not connect to AAP. Error: "
                   ++ e)))).

Definition vm_manifest (vm : VirtualMachine) : json :=
  JDict [
    ("apiVersion", JStr "kubevirt.io/v1");
    ("kind", JStr "VirtualMachine");
    ("metadata", JDict [("name", JStr (vm_name vm))]);
    ("spec", JDict [
      ("running", JBool false);
      ("template", JDict [
        ("spec", JDict [
          ("domain", JDict [
            ("devices", JDict [
              ("disks", JList [
                JDict [("name", JStr "containerdisk");
                       ("disk", JDict [("bus", JStr "virtio")])]])]);
            ("resources", JDict [
              ("requests", JDict [("memory", JStr "2Gi")])])]);
          ("volumes", JList [
            JDict [("name", JStr "containerdisk");
                   ("containerDisk", JDict [
                     ("image", JStr "quay.io/containerdisks/rhel:9")])]])
        ])])])].

Definition create_vm (vm : VirtualMachine) : M json :=
  try_except
    (perform_k8s
       (create_namespaced_custom_object
          "kubevirt.io" "v1" (namespace vm) "virtualmachines"
          (vm_manifest vm)) ;;;
     ret (JDict [
       ("status", JStr "success");
       ("message",
        JStr ("VirtualMachine '" ++ vm_name vm
              ++ "' created successfully in namespace '" ++ namespace vm
              ++ "'."))]))
    (as_ApiException (fun status reason =>
       raise (HTTPException status
                ("Kubernetes API Error: Failed to create VM. Reason: "
                 ++ reason)))).

Definition launch_headers (token : option string) : dict_str :=
  [("Content-Type", "application/json");
   ("Authorization", "Bearer " ++ Py.format_opt token)].

Definition launch_aap_job (job : AAPJob) : M json :=
  token <- global AAP_API_TOKEN ;;
  if Py.not_ token then
    raise (HTTPException 500 "AAP_API_TOKEN is not configured.")
  else
    let headers := launch_headers token in
    template_id <- get_job_template_id (job_template_name job) headers ;;
    controller <- global AAP_CONTROLLER_URL ;;
    let launch_url :=
      Py.format_opt controller ++ "/api/v2/job_templates/"
      ++ Py.str repr_container template_id ++ "/launch/" in
    try_except
      (launch_response <- perform_http
         (requests_post launch_url headers
            (JDict [("extra_vars", JDict (extra_vars job))]) false) ;;
       lift (raise_for_status launch_response) ;;;
       job_data <- lift (Response_json launch_response) ;;
       job_id <- lift (Py.get job_data "job") ;;
       job_id' <- lift (Py.get job_data "job") ;;
       ret (JDict [
         ("status", JStr "success");
         ("message",
          JStr ("Successfully launched job template '"
                ++ job_template_name job ++ "'."));
         ("job_id", job_id);
         ("aap_url",
          JStr (Py.format_opt controller ++ "/#/jobs/playbook/"
                ++ Py.str repr_container job_id'))]))
      (as_RequestException (fun e =>
         raise (HTTPException 503
                  ("Service Unavailable: Failed to launch job in AAP. Error: "
                   ++ e)))).

End Program.

(** ** Vocabulary of the statements *)

(** The lookup call made for a template name. *)
Definition lookup_call (base token template_name : string) : call :=
  requests_get (base ++ "/api/v2/job_templates/")
    (launch_headers (Some token)) [("name", template_name)] false.

(** The launch call made for a resolved identifier (already formatted). *)
Definition launch_call (base token id : string) (vars : list (string * json))
  : call :=
  requests_post (base ++ "/api/v2/job_templates/" ++ id ++ "/launch/")
    (launch_headers (Some token)) (JDict [("extra_vars", JDict vars)]) false.

(** The create call made for a VirtualMachine request. *)
Definition create_call (vm : VirtualMachine) : call :=
  create_namespaced_custom_object
    "kubevirt.io" "v1" (namespace vm) "virtualmachines" (vm_manifest vm).

(** Both controller settings are present and non-empty. *)
Definition configured (cfg : Config) (base token : string) : Prop :=
  AAP_CONTROLLER_URL cfg = Some base /\ base <> "" /\
  AAP_API_TOKEN cfg = Some token /\ token <> "".

(** The response passes [raise_for_status] and its body is the JSON [data]. *)
Definition answers (r : Response) (data : json) : Prop :=
  raise_for_status r = inr tt /\ body r = inr data.

(** The lookup for [name] is answered with [data]. *)
Definition lookup_answers (w : World) (base token name : string) (data : json)
  : Prop :=
  exists r, http w [] (lookup_call base token name) = Responds r /\
            answers r data.

Definition is_launch (c : call) : bool :=
  match c with
  | requests_post _ _ _ _ => true
  | _ => false
  end.

(** The text of the HTTPError that [raise_for_status] raises. *)
Definition http_error_msg (r : Response) : string :=
  Py.str_int (status_code r)
  ++ (if status_code r <? 500 then " Client Error: " else " Server Error: ")
  ++ reason r ++ " for url: " ++ url r.

(** The call fails in the eyes of the requests library: it raises at the
    transport level, or it is answered with a 4xx or 5xx status, on which
    [raise_for_status] raises.  [text] is [str(e)] of the exception. *)
Inductive call_fails (w : World) (t : list call) (c : call) : string -> Prop :=
| fails_transport (text : string) :
    http w t c = Fails text -> call_fails w t c text
| fails_status (r : Response) :
    http w t c = Responds r -> 400 <= status_code r < 600 ->
    call_fails w t c (http_error_msg r).

(** ** Start-up: configuring the Kubernetes client *)

Inductive loader : Type :=
| load_incluster_config
| load_kube_config.

(** A loader returns, raises [config.ConfigException], or raises something
    else. *)
Inductive loader_outcome : Type :=
| Loaded
| ConfigException
| LoaderError (name : string).

Inductive startup_exn : Type :=
| Exception (message : string)
| Uncaught (name : string).

(** The module-level try/except, with the loaders it called, in order. *)
Definition configure_kubernetes (try_load : loader -> loader_outcome)
  : (startup_exn + unit) * list loader :=
  match try_load load_incluster_config with
  | Loaded => (inr tt, [load_incluster_config])
  | LoaderError name => (inl (Uncaught name), [load_incluster_config])
  | ConfigException =>
      match try_load load_kube_config with
      | Loaded => (inr tt, [load_incluster_config; load_kube_config])
      | LoaderError name =>
          (inl (Uncaught name), [load_incluster_config; load_kube_config])
      | ConfigException =>
          (inl (Exception "Could not configure kubernetes client"),
           [load_incluster_config; load_kube_config])
      end
  end.

(** ** Further vocabulary *)

Definition is_lookup (c : call) : bool :=
  match c with
  | requests_get _ _ _ _ => true
  | _ => false
  end.


(** A lookup body that the resolver cannot read, with the Python error that
    reading it raises: no "count" to subscript, a count that is not a
    number, or a count equal to 1 without a first result carrying an "id". *)
Inductive malformed_lookup (data : json) : exn -> Prop :=
| no_count (e : exn) :
    Py.getitem data "count" = inl e -> malformed_lookup data e
| count_not_a_number (count : json) :
    Py.getitem data "count" = inr count ->
    (forall n, count <> JInt n) -> (forall b, count <> JBool b) ->
    malformed_lookup data TypeError
| no_results (count : json) (e : exn) :
    Py.getitem data "count" = inr count -> Py.eq_int count 1 = true ->
    Py.getitem data "results" = inl e -> malformed_lookup data e
| no_first_result (count results : json) (e : exn) :
    Py.getitem data "count" = inr count -> Py.eq_int count 1 = true ->
    Py.getitem data "results" = inr results ->
    Py.getitem0 results = inl e -> malformed_lookup data e
| no_id (count results first : json) (e : exn) :
    Py.getitem data "count" = inr count -> Py.eq_int count 1 = true ->
    Py.getitem data "results" = inr results ->
    Py.getitem0 results = inr first ->
    Py.getitem first "id" = inl e -> malformed_lookup data e.

(** The Python errors that no [except] clause of the program catches. *)
Definition uncaught_python_error (e : exn) : Prop :=
  e = KeyError \/ e = IndexError \/ e = TypeError \/ e = AttributeError.

(** The shape of the dict that [launch_aap_job] returns. *)
Definition launch_result (base : string) (job : AAPJob) (job_id : json)
    (job_id_text : string) : json :=
  JDict [
    ("status", JStr "success");
    ("message",
     JStr ("Successfully launched job template '"
           ++ job_template_name job ++ "'."));
    ("job_id", job_id);
    ("aap_url", JStr (base ++ "/#/jobs/playbook/" ++ job_id_text))].

(** The dict that [create_vm] returns. *)
Definition create_result (vm : VirtualMachine) : json :=
  JDict [
    ("status", JStr "success");
    ("message",
     JStr ("VirtualMachine '" ++ vm_name vm
           ++ "' created successfully in namespace '" ++ namespace vm
           ++ "'."))].

(** ** Concrete configurations and remote services *)

Module Examples.

Definition repr_elided : json -> string := fun _ => "[...]".

Definition cfg_ok : Config :=
  {| AAP_CONTROLLER_URL := Some "https://aap.example.com";
     AAP_API_TOKEN := Some "s3cr3t" |}.

Definition cfg_unset : Config :=
  {| AAP_CONTROLLER_URL := None; AAP_API_TOKEN := None |}.

Definition reply (status : Z) (phrase : string) (j : json) : Response :=
  {| status_code := status; reason := phrase;
     url := "https://aap.example.com/"; body := inr j |}.

Definition found (count id : Z) : json :=
  JDict [("count", JInt count);
         ("results", JList [JDict [("id", JInt id)]])].

Definition matches (count : Z) : json :=
  JDict [("count", JInt count);
         ("results",
          JList (repeat (JDict [("id", JInt 7)]) (Z.to_nat count)))].

(** The controller knows one template, 42; a launch is answered with
    [launched]; the cluster creates what it is asked to create. *)
Definition world_one (launched : json) : World :=
  {| http := fun _ c =>
       match c with
       | requests_get _ _ _ _ => Responds (reply 200 "OK" (found 1 42))
       | _ => Responds (reply 201 "Created" launched)
       end;
     k8s := fun _ _ => Created JNull |}.

(** The controller reports [count] templates of the requested name. *)
Definition world_count (count : Z) : World :=
  {| http := fun _ c =>
       match c with
       | requests_get _ _ _ _ => Responds (reply 200 "OK" (matches count))
       | _ => Responds (reply 201 "Created" (JDict [("job", JInt 101)]))
       end;
     k8s := fun _ _ => Created JNull |}.

(** The controller cannot be reached. *)
Definition world_down : World :=
  {| http := fun _ _ => Fails "Connection refused";
     k8s := fun _ _ => Broken "MaxRetryError" |}.

(** The lookup works, the launch is refused with 403. *)
Definition world_forbidden : World :=
  {| http := fun _ c =>
       match c with
       | requests_get _ _ _ _ => Responds (reply 200 "OK" (found 1 42))
       | _ => Responds (reply 403 "Forbidden" JNull)
       end;
     k8s := fun _ _ => Created JNull |}.

(** The lookup is answered with status 300 and a well-formed body. *)
Definition world_300 : World :=
  {| http := fun _ c =>
       match c with
       | requests_get _ _ _ _ =>
           Responds (reply 300 "Multiple Choices" (found 1 42))
       | _ => Responds (reply 201 "Created" (JDict [("job", JInt 101)]))
       end;
     k8s := fun _ _ => Created JNull |}.

(** The cluster already has a VM of that name. *)
Definition world_conflict : World :=
  {| http := fun _ _ => Fails "Connection refused";
     k8s := fun _ _ => Rejected 409 "AlreadyExists" |}.

Definition deploy_app : AAPJob :=
  {| job_template_name := "Deploy-App"; extra_vars := [] |}.

Definition test_vm : VirtualMachine :=
  {| vm_name := "test-vm"; namespace := "default" |}.

Definition cfg_no_url : Config :=
  {| AAP_CONTROLLER_URL := None; AAP_API_TOKEN := Some "s3cr3t" |}.

(** The lookup is answered with the JSON body [data]; a launch is answered
    with [launched]; the cluster client breaks down. *)
Definition world_lookup (data launched : json) : World :=
  {| http := fun _ c =>
       match c with
       | requests_get _ _ _ _ => Responds (reply 200 "OK" data)
       | _ => Responds (reply 201 "Created" launched)
       end;
     k8s := fun _ _ => Broken "MaxRetryError" |}.

End Examples.

(** ** Auxiliary facts *)

Lemma not_nonempty (s : string) : s <> "" -> Py.not_ (Some s) = false.
Proof. destruct s; [congruence | reflexivity]. Qed.

Lemma not_unset (x : option string) :
  Py.not_ x = true <-> x = None \/ x = Some "".
Proof.
  destruct x as [[|c s]|]; simpl; split; intros H; auto;
    try discriminate; destruct H; discriminate.
Qed.

Lemma prefix_append (n s : string) : String.prefix n (n ++ s) = true.
Proof.
  induction n as [|c n IH]; simpl.
  - destruct s; reflexivity.
  - destruct (Ascii.ascii_dec c c); [exact IH | congruence].
Qed.

Lemma prefix_sound (n h : string) :
  String.prefix n h = true -> exists s, h = n ++ s.
Proof.
  revert h. induction n as [|c n IH]; intros h H.
  - exists h. reflexivity.
  - destruct h as [|c' h]; simpl in H; [discriminate|].
    destruct (Ascii.ascii_dec c c') as [->|]; [|discriminate].
    destruct (IH h H) as [s ->]. exists s. reflexivity.
Qed.

Lemma contains_prefix (n h : string) :
  String.prefix n h = true -> Py.contains n h = true.
Proof. intros H. destruct h; cbn [Py.contains]; rewrite H; reflexivity. Qed.

Lemma contains_append (p n s : string) : Py.contains n (p ++ n ++ s) = true.
Proof.
  induction p as [|c p IH]; simpl.
  - apply contains_prefix, prefix_append.
  - rewrite IH. apply orb_true_r.
Qed.

Lemma contains_skip (p n h : string) :
  Py.contains n h = true -> Py.contains n (p ++ h) = true.
Proof.
  intros H. induction p as [|c p IH]; simpl; [exact H|].
  rewrite IH. apply orb_true_r.
Qed.

Lemma prefix_refl (n : string) : String.prefix n n = true.
Proof.
  induction n as [|c n IH]; simpl; [reflexivity|].
  destruct (Ascii.ascii_dec c c); [exact IH | congruence].
Qed.

Lemma contains_suffix (p n : string) : Py.contains n (p ++ n) = true.
Proof. apply contains_skip, contains_prefix, prefix_refl. Qed.

(** [Py.contains] decides the substring relation. *)
Lemma contains_spec (n h : string) :
  Py.contains n h = true <-> exists p s, h = p ++ n ++ s.
Proof.
  split.
  - induction h as [|c h IH]; cbn [Py.contains]; intros H.
    + rewrite orb_false_r in H. destruct (prefix_sound _ _ H) as [s Hs].
      rewrite Hs.
      exists "", s. reflexivity.
    + apply orb_true_iff in H. destruct H as [H|H].
      * destruct (prefix_sound _ _ H) as [s ->]. exists "", s. reflexivity.
      * destruct (IH H) as (p & s & ->). exists (String c p), s. reflexivity.
  - intros (p & s & ->). apply contains_append.
Qed.

(** Symbolic execution of the monadic code: unfold the combinators and use
    the facts at hand about the configuration and the oracle. *)
Ltac unfold_py :=
  unfold run, launch_aap_job, get_job_template_id, create_vm, bind, global,
    try_except, perform_http, perform_k8s, lift, raise, ret,
    as_RequestException, as_ApiException.

Lemma raise_for_status_error (r : Response) :
  400 <= status_code r < 600 ->
  raise_for_status r = inl (RequestException (http_error_msg r)).
Proof.
  intros [Hlo Hhi]. unfold raise_for_status, http_error_msg.
  apply Z.leb_le in Hlo. rewrite Hlo. cbn [andb].
  destruct (status_code r <? 500) eqn:E; [reflexivity|].
  apply Z.ltb_ge, Z.leb_le in E. apply Z.ltb_lt in Hhi.
  rewrite E, Hhi. reflexivity.
Qed.

Lemma raise_for_status_pass (r : Response) :
  status_code r < 400 \/ 600 <= status_code r ->
  raise_for_status r = inr tt.
Proof.
  intros H. unfold raise_for_status.
  destruct (400 <=? status_code r) eqn:E1, (status_code r <? 500) eqn:E2,
    (500 <=? status_code r) eqn:E3, (status_code r <? 600) eqn:E4;
    cbn [andb]; try reflexivity; exfalso;
    repeat match goal with
      | H : (_ <=? _) = true |- _ => apply Z.leb_le in H
      | H : (_ <=? _) = false |- _ => apply Z.leb_gt in H
      | H : (_ <? _) = true |- _ => apply Z.ltb_lt in H
      | H : (_ <? _) = false |- _ => apply Z.ltb_ge in H
      end; lia.
Qed.

Section Resolver.

Variable repr_container : json -> string.
Variables (cfg : Config) (w : World) (base token : string).
Hypothesis Hcfg : configured cfg base token.

Let headers : dict_str := launch_headers (Some token).

Ltac enter_resolver name :=
  let Hu := fresh "Hu" in
  let Hb := fresh "Hb" in
  destruct Hcfg as (Hu & Hb & _ & _);
  unfold headers; unfold_py; rewrite Hu, (not_nonempty _ Hb);
  cbn [Py.format_opt]; fold (lookup_call base token name).

(** With the controller URL set, the resolver starts with the lookup call
    and a transport failure there becomes a 503. *)
Lemma resolver_transport_failure (name text : string) (t : list call) :
  http w t (lookup_call base token name) = Fails text ->
  get_job_template_id name headers cfg w t =
    (inl (HTTPException 503
            ("Service Unavailable: Could not connect to AAP. Error: "
             ++ text)),
     (t ++ [lookup_call base token name])%list).
Proof. intros Hw. enter_resolver name. rewrite Hw. reflexivity. Qed.

(** So does an HTTPError raised by [raise_for_status]. *)
Lemma resolver_status_failure (name text : string) (t : list call)
    (r : Response) :
  http w t (lookup_call base token name) = Responds r ->
  raise_for_status r = inl (RequestException text) ->
  get_job_template_id name headers cfg w t =
    (inl (HTTPException 503
            ("Service Unavailable: Could not connect to AAP. Error: "
             ++ text)),
     (t ++ [lookup_call base token name])%list).
Proof.
  intros Hw Hr. enter_resolver name. rewrite Hw, Hr. reflexivity.
Qed.

(** count == 1: the identifier of the first result. *)
Lemma resolver_unique (name : string) (t : list call) (r : Response)
    (data results first id : json) :
  http w t (lookup_call base token name) = Responds r ->
  answers r data ->
  Py.getitem data "count" = inr (JInt 1) ->
  Py.getitem data "results" = inr results ->
  Py.getitem0 results = inr first ->
  Py.getitem first "id" = inr id ->
  get_job_template_id name headers cfg w t =
    (inr id, (t ++ [lookup_call base token name])%list).
Proof.
  intros Hw [Hr Hb'] Hc Hrs Hf Hid. enter_resolver name.
  unfold Response_json. rewrite Hw, Hr, Hb', Hc.
  cbn [Py.eq_int Z.eqb Pos.eqb]. rewrite Hrs, Hf, Hid. reflexivity.
Qed.

(** count > 1: 409, whatever the count is. *)
Lemma resolver_ambiguous (name : string) (t : list call) (r : Response)
    (data : json) (n : Z) :
  http w t (lookup_call base token name) = Responds r ->
  answers r data ->
  Py.getitem data "count" = inr (JInt n) ->
  1 < n ->
  get_job_template_id name headers cfg w t =
    (inl (HTTPException 409
            ("Conflict: Multiple job templates found with name '"
             ++ name ++ "'.")),
     (t ++ [lookup_call base token name])%list).
Proof.
  intros Hw [Hr Hb'] Hc Hn. enter_resolver name.
  unfold Response_json. rewrite Hw, Hr, Hb', Hc.
  cbn [Py.eq_int Py.gt_int].
  replace (n =? 1) with false by (symmetry; apply Z.eqb_neq; lia).
  replace (1 <? n) with true by (symmetry; apply Z.ltb_lt; lia).
  reflexivity.
Qed.

(** count < 1, in particular count == 0: 404. *)
Lemma resolver_not_found (name : string) (t : list call) (r : Response)
    (data : json) (n : Z) :
  http w t (lookup_call base token name) = Responds r ->
  answers r data ->
  Py.getitem data "count" = inr (JInt n) ->
  n < 1 ->
  get_job_template_id name headers cfg w t =
    (inl (HTTPException 404
            ("Not Found: No job template found with name '"
             ++ name ++ "'.")),
     (t ++ [lookup_call base token name])%list).
Proof.
  intros Hw [Hr Hb'] Hc Hn. enter_resolver name.
  unfold Response_json. rewrite Hw, Hr, Hb', Hc.
  cbn [Py.eq_int Py.gt_int].
  replace (n =? 1) with false by (symmetry; apply Z.eqb_neq; lia).
  replace (1 <? n) with false by (symmetry; apply Z.ltb_ge; lia).
  reflexivity.
Qed.

Ltac enter_launch Hu :=
  let Hb := fresh "Hb" in
  let Ht := fresh "Ht" in
  let Hk := fresh "Hk" in
  destruct Hcfg as (Hu & Hb & Ht & Hk);
  unfold run, launch_aap_job;
  unfold bind at 1; unfold global at 1;
  rewrite Ht, (not_nonempty _ Hk);
  unfold bind at 1; fold headers.

(** The launch endpoint hands on whatever the resolver raises. *)
Lemma launch_propagates (job : AAPJob) (e : exn) (t : list call) :
  get_job_template_id (job_template_name job) headers cfg w [] = (inl e, t) ->
  run (launch_aap_job repr_container job) cfg w = (inl e, t).
Proof. intros Hres. enter_launch Hu. rewrite Hres. reflexivity. Qed.

Lemma launch_transport_failure (job : AAPJob) (id : json) (t : list call)
    (text : string) :
  get_job_template_id (job_template_name job) headers cfg w [] = (inr id, t) ->
  http w t (launch_call base token (Py.str repr_container id)
              (extra_vars job)) = Fails text ->
  run (launch_aap_job repr_container job) cfg w =
    (inl (HTTPException 503
            ("Service Unavailable: Failed to launch job in AAP. Error: "
             ++ text)),
     (t ++ [launch_call base token (Py.str repr_container id)
              (extra_vars job)])%list).
Proof.
  intros Hres Hw. enter_launch Hu. rewrite Hres.
  unfold headers; unfold_py. rewrite Hu. cbn [Py.format_opt].
  fold (launch_call base token (Py.str repr_container id) (extra_vars job)).
  rewrite Hw. reflexivity.
Qed.

Lemma launch_status_failure (job : AAPJob) (id : json) (t : list call)
    (r : Response) (text : string) :
  get_job_template_id (job_template_name job) headers cfg w [] = (inr id, t) ->
  http w t (launch_call base token (Py.str repr_container id)
              (extra_vars job)) = Responds r ->
  raise_for_status r = inl (RequestException text) ->
  run (launch_aap_job repr_container job) cfg w =
    (inl (HTTPException 503
            ("Service Unavailable: Failed to launch job in AAP. Error: "
             ++ text)),
     (t ++ [launch_call base token (Py.str repr_container id)
              (extra_vars job)])%list).
Proof.
  intros Hres Hw Hr. enter_launch Hu. rewrite Hres.
  unfold headers; unfold_py. rewrite Hu. cbn [Py.format_opt].
  fold (launch_call base token (Py.str repr_container id) (extra_vars job)).
  rewrite Hw, Hr. reflexivity.
Qed.

(** A launch response that passes and whose body is a dict: success, with
    [job_data.get('job')] as the job identifier. *)
Lemma launch_success (job : AAPJob) (id : json) (t : list call)
    (r : Response) (job_data job_id : json) :
  get_job_template_id (job_template_name job) headers cfg w [] = (inr id, t) ->
  http w t (launch_call base token (Py.str repr_container id)
              (extra_vars job)) = Responds r ->
  answers r job_data ->
  Py.get job_data "job" = inr job_id ->
  run (launch_aap_job repr_container job) cfg w =
    (inr (JDict [
       ("status", JStr "success");
       ("message",
        JStr ("Successfully launched job template '"
              ++ job_template_name job ++ "'."));
       ("job_id", job_id);
       ("aap_url",
        JStr (base ++ "/#/jobs/playbook/" ++ Py.str repr_container job_id))]),
     (t ++ [launch_call base token (Py.str repr_container id)
              (extra_vars job)])%list).
Proof.
  intros Hres Hw [Hr Hb'] Hj. enter_launch Hu. rewrite Hres.
  unfold headers; unfold_py. rewrite Hu. cbn [Py.format_opt].
  fold (launch_call base token (Py.str repr_container id) (extra_vars job)).
  unfold Response_json. rewrite Hw, Hr, Hb', Hj. reflexivity.
Qed.

(** Once the controller URL is set, the resolver makes the lookup call and
    no other call, whatever the outcome. *)
Lemma resolver_one_call (name : string) (t : list call) :
  exists res,
    get_job_template_id name headers cfg w t =
      (res, (t ++ [lookup_call base token name])%list).
Proof.
  enter_resolver name.
  destruct (http w t (lookup_call base token name)) as [r|text];
    [|eexists; reflexivity].
  destruct (raise_for_status r) as [[]|[]]; try (eexists; reflexivity).
  destruct (Response_json r) as [[]|data]; try (eexists; reflexivity).
  destruct (Py.getitem data "count") as [[]|count];
    try (eexists; reflexivity).
  destruct (Py.eq_int count 1).
  - destruct (Py.getitem data "results") as [[]|results];
      try (eexists; reflexivity).
    destruct (Py.getitem0 results) as [[]|first];
      try (eexists; reflexivity).
    destruct (Py.getitem first "id") as [[]|id]; eexists; reflexivity.
  - destruct (Py.gt_int count 1) as [[]|[]]; eexists; reflexivity.
Qed.

(** After a successful resolution the launch call is made, with the
    formatted identifier in its path, and no other call follows. *)
Lemma launch_attempted (job : AAPJob) (id : json) (t : list call) :
  get_job_template_id (job_template_name job) headers cfg w [] = (inr id, t) ->
  exists res,
    run (launch_aap_job repr_container job) cfg w =
      (res,
       (t ++ [launch_call base token (Py.str repr_container id)
                (extra_vars job)])%list).
Proof.
  intros Hres. enter_launch Hu. rewrite Hres.
  unfold headers; unfold_py. rewrite Hu. cbn [Py.format_opt].
  fold (launch_call base token (Py.str repr_container id) (extra_vars job)).
  destruct (http w t _) as [r|text]; [|eexists; reflexivity].
  destruct (raise_for_status r) as [[]|[]]; try (eexists; reflexivity).
  destruct (Response_json r) as [[]|job_data]; try (eexists; reflexivity).
  destruct (Py.get job_data "job") as [[]|job_id]; eexists; reflexivity.
Qed.

End Resolver.

(** [create_vm] makes the create call and no other call, whatever the
    configuration and the outcome. *)
Lemma create_vm_one_call (vm : VirtualMachine) (cfg : Config) (w : World) :
  exists res, run (create_vm vm) cfg w = (res, [create_call vm]).
Proof.
  unfold_py. fold (create_call vm).
  destruct (k8s w [] (create_call vm)); eexists; reflexivity.
Qed.

Lemma cfg_ok_configured :
  configured Examples.cfg_ok "https://aap.example.com" "s3cr3t".
Proof. repeat split; discriminate. Defined.

(** ** The properties *)

(** C1: when the lookup response has count 1, the resolver returns the
    identifier of the single result, and the launch call that follows is a
    POST to [{base}/api/v2/job_templates/{id}/launch/] with the decimal
    identifier in the path; the template name does not occur in the way the
    path is built. *)
Theorem C1_unique_match_resolved_and_launched_by_id
    (repr_container : json -> string) (cfg : Config) (w : World)
    (base token : string) (job : AAPJob) (data first : json) (id : Z) :
  configured cfg base token ->
  lookup_answers w base token (job_template_name job) data ->
  Py.getitem data "count" = inr (JInt 1) ->
  Py.getitem data "results" = inr (JList [first]) ->
  Py.getitem first "id" = inr (JInt id) ->
  get_job_template_id (job_template_name job) (launch_headers (Some token))
    cfg w [] =
    (inr (JInt id), [lookup_call base token (job_template_name job)]) /\
  exists res,
    run (launch_aap_job repr_container job) cfg w =
      (res,
       [lookup_call base token (job_template_name job);
        requests_post
          (base ++ "/api/v2/job_templates/" ++ Py.str_int id ++ "/launch/")
          (launch_headers (Some token))
          (JDict [("extra_vars", JDict (extra_vars job))]) false]).
Proof.
  intros Hcfg (r & Hw & Hr) Hc Hrs Hid.
  assert (Hres :
    get_job_template_id (job_template_name job) (launch_headers (Some token))
      cfg w [] =
      (inr (JInt id), [lookup_call base token (job_template_name job)])).
  { apply (resolver_unique cfg w base token Hcfg _ [] r data
             (JList [first]) first (JInt id)); auto. }
  split; [exact Hres|].
  destruct (launch_attempted repr_container cfg w base token Hcfg job _ _ Hres)
    as [res Hrun].
  exists res. exact Hrun.
Qed.

Lemma C1_witness :
  get_job_template_id "Deploy-App" (launch_headers (Some "s3cr3t"))
    Examples.cfg_ok (Examples.world_one (JDict [("job", JInt 101)])) [] =
    (inr (JInt 42),
     [lookup_call "https://aap.example.com" "s3cr3t" "Deploy-App"]) /\
  exists res,
    run (launch_aap_job Examples.repr_elided Examples.deploy_app)
      Examples.cfg_ok (Examples.world_one (JDict [("job", JInt 101)])) =
      (res,
       [lookup_call "https://aap.example.com" "s3cr3t" "Deploy-App";
        requests_post "https://aap.example.com/api/v2/job_templates/42/launch/"
          (launch_headers (Some "s3cr3t"))
          (JDict [("extra_vars", JDict [])]) false]).
Proof.
  apply (C1_unique_match_resolved_and_launched_by_id
           Examples.repr_elided Examples.cfg_ok
           (Examples.world_one (JDict [("job", JInt 101)]))
           "https://aap.example.com" "s3cr3t" Examples.deploy_app
           (Examples.found 1 42) (JDict [("id", JInt 42)]) 42).
  - exact cfg_ok_configured.
  - exists (Examples.reply 200 "OK" (Examples.found 1 42)).
    repeat split; reflexivity.
  - reflexivity.
  - reflexivity.
  - reflexivity.
Defined.

(** C2: for every request the one outbound call of [create_vm] is the create
    call for group "kubevirt.io", version "v1", plural "virtualmachines",
    scoped to the request's namespace, and its body is the fixed manifest:
    apiVersion "kubevirt.io/v1", kind "VirtualMachine", metadata holding the
    name and nothing else, spec.running false, one disk "containerdisk", one
    volume "containerdisk" with image "quay.io/containerdisks/rhel:9", and
    a memory request of "2Gi"; the manifest does not depend on the
    namespace. *)
Theorem C2_create_vm_submits_fixed_manifest
    (vm : VirtualMachine) (cfg : Config) (w : World) :
  (exists res,
     run (create_vm vm) cfg w =
       (res,
        [create_namespaced_custom_object
           "kubevirt.io" "v1" (namespace vm) "virtualmachines"
           (vm_manifest vm)])) /\
  Py.path ["apiVersion"] (vm_manifest vm) = inr (JStr "kubevirt.io/v1") /\
  Py.path ["kind"] (vm_manifest vm) = inr (JStr "VirtualMachine") /\
  Py.path ["metadata"] (vm_manifest vm) =
    inr (JDict [("name", JStr (vm_name vm))]) /\
  Py.path ["metadata"; "namespace"] (vm_manifest vm) = inl KeyError /\
  Py.path ["spec"; "running"] (vm_manifest vm) = inr (JBool false) /\
  Py.path ["spec"; "template"; "spec"; "domain"; "devices"; "disks"]
    (vm_manifest vm) =
    inr (JList [JDict [("name", JStr "containerdisk");
                       ("disk", JDict [("bus", JStr "virtio")])]]) /\
  Py.path ["spec"; "template"; "spec"; "volumes"] (vm_manifest vm) =
    inr (JList [JDict [("name", JStr "containerdisk");
                       ("containerDisk",
                        JDict [("image",
                                JStr "quay.io/containerdisks/rhel:9")])]]) /\
  Py.path ["spec"; "template"; "spec"; "domain"; "resources"; "requests";
           "memory"] (vm_manifest vm) = inr (JStr "2Gi") /\
  Py.keys (vm_manifest vm) = Some ["apiVersion"; "kind"; "metadata"; "spec"] /\
  (forall ns : string,
     vm_manifest {| vm_name := vm_name vm; namespace := ns |} = vm_manifest vm).
Proof.
  split; [apply create_vm_one_call|].
  repeat split; reflexivity.
Qed.

(** C3, as amended: when the lookup response has a count greater than 1,
    resolution fails with 409 and a detail that quotes the requested name;
    the detail is the same for every such count (the count is not part of
    it); the launch endpoint fails likewise and makes no launch call. *)
Theorem C3_ambiguous_name_conflict_without_count
    (repr_container : json -> string) (cfg : Config) (w : World)
    (base token : string) (job : AAPJob) (data : json) (count : Z) :
  configured cfg base token ->
  lookup_answers w base token (job_template_name job) data ->
  Py.getitem data "count" = inr (JInt count) ->
  1 < count ->
  let detail :=
    "Conflict: Multiple job templates found with name '"
    ++ job_template_name job ++ "'." in
  get_job_template_id (job_template_name job) (launch_headers (Some token))
    cfg w [] =
    (inl (HTTPException 409 detail),
     [lookup_call base token (job_template_name job)]) /\
  run (launch_aap_job repr_container job) cfg w =
    (inl (HTTPException 409 detail),
     [lookup_call base token (job_template_name job)]) /\
  existsb is_launch (snd (run (launch_aap_job repr_container job) cfg w))
    = false /\
  Py.contains (job_template_name job) detail = true.
Proof.
  intros Hcfg (r & Hw & Hr) Hc Hn detail.
  assert (Hres :
    get_job_template_id (job_template_name job) (launch_headers (Some token))
      cfg w [] =
      (inl (HTTPException 409 detail),
       [lookup_call base token (job_template_name job)])).
  { apply (resolver_ambiguous cfg w base token Hcfg _ [] r data count); auto. }
  pose proof (launch_propagates repr_container cfg w base token Hcfg job _ _
                Hres) as Hrun.
  repeat split; [exact Hres | exact Hrun | rewrite Hrun; reflexivity |].
  apply contains_append.
Qed.

Lemma C3_witness :
  let detail := "Conflict: Multiple job templates found with name 'Deploy-App'."
  in
  get_job_template_id "Deploy-App" (launch_headers (Some "s3cr3t"))
    Examples.cfg_ok (Examples.world_count 3) [] =
    (inl (HTTPException 409 detail),
     [lookup_call "https://aap.example.com" "s3cr3t" "Deploy-App"]) /\
  run (launch_aap_job Examples.repr_elided Examples.deploy_app)
    Examples.cfg_ok (Examples.world_count 3) =
    (inl (HTTPException 409 detail),
     [lookup_call "https://aap.example.com" "s3cr3t" "Deploy-App"]) /\
  existsb is_launch
    (snd (run (launch_aap_job Examples.repr_elided Examples.deploy_app)
            Examples.cfg_ok (Examples.world_count 3))) = false /\
  Py.contains "Deploy-App" detail = true.
Proof.
  apply (C3_ambiguous_name_conflict_without_count
           Examples.repr_elided Examples.cfg_ok (Examples.world_count 3)
           "https://aap.example.com" "s3cr3t" Examples.deploy_app
           (Examples.matches 3) 3).
  - exact cfg_ok_configured.
  - exists (Examples.reply 200 "OK" (Examples.matches 3)).
    repeat split; reflexivity.
  - reflexivity.
  - lia.
Defined.

(** C3 as stated fails: with two templates named "Deploy-App" the endpoint
    does not fail with an error whose detail carries both the name and the
    count 2. *)
Lemma C3_counterexample :
  ~ exists status detail,
      fst (run (launch_aap_job Examples.repr_elided Examples.deploy_app)
             Examples.cfg_ok (Examples.world_count 2)) =
        inl (HTTPException status detail) /\
      Py.contains "Deploy-App" detail = true /\
      Py.contains (Py.str_int 2) detail = true.
Proof.
  intros (status & detail & Hrun & _ & Hcount).
  vm_compute in Hrun. injection Hrun as _ Hd. subst detail.
  vm_compute in Hcount. discriminate.
Qed.

(** C4: a launch response that passes and whose body is a JSON object gives
    a success result.  When the object has no "job" field, job_id is None
    and the status URL is [{base}/#/jobs/playbook/None]; when the field is
    an integer, job_id is that integer and the URL ends with its decimal
    form after "/jobs/playbook/". *)
Theorem C4_launch_success_job_field
    (repr_container : json -> string) (cfg : Config) (w : World)
    (base token : string) (job : AAPJob) (id : json) (t : list call)
    (r : Response) (fields : list (string * json)) :
  configured cfg base token ->
  get_job_template_id (job_template_name job) (launch_headers (Some token))
    cfg w [] = (inr id, t) ->
  http w t (launch_call base token (Py.str repr_container id)
              (extra_vars job)) = Responds r ->
  answers r (JDict fields) ->
  exists job_id aap_url,
    run (launch_aap_job repr_container job) cfg w =
      (inr (JDict [
         ("status", JStr "success");
         ("message",
          JStr ("Successfully launched job template '"
                ++ job_template_name job ++ "'."));
         ("job_id", job_id);
         ("aap_url", JStr aap_url)]),
       (t ++ [launch_call base token (Py.str repr_container id)
                (extra_vars job)])%list) /\
    aap_url = base ++ "/#/jobs/playbook/" ++ Py.str repr_container job_id /\
    (Py.lookup "job" fields = None ->
       job_id = JNull /\ aap_url = base ++ "/#/jobs/playbook/None") /\
    (forall n : Z,
       Py.lookup "job" fields = Some (JInt n) ->
       job_id = JInt n /\
       aap_url = base ++ "/#/jobs/playbook/" ++ Py.str_int n /\
       Py.contains ("/jobs/playbook/" ++ Py.str_int n) aap_url = true).
Proof.
  intros Hcfg Hres Hw Hr.
  destruct (Py.lookup "job" fields) as [j|] eqn:Hj.
  - exists j, (base ++ "/#/jobs/playbook/" ++ Py.str repr_container j).
    split; [|split; [reflexivity|split]].
    + apply (launch_success repr_container cfg w base token Hcfg job id t r
               (JDict fields) j); auto.
      cbn [Py.get]. rewrite Hj. reflexivity.
    + discriminate.
    + intros n [= ->]. cbn [Py.str]. repeat split.
      apply contains_skip.
      apply (contains_suffix "/#" ("/jobs/playbook/" ++ Py.str_int n)).
  - exists JNull, (base ++ "/#/jobs/playbook/None").
    split; [|split; [reflexivity|split]].
    + apply (launch_success repr_container cfg w base token Hcfg job id t r
               (JDict fields) JNull); auto.
      cbn [Py.get]. rewrite Hj. reflexivity.
    + auto.
    + discriminate.
Qed.

Lemma C4_witness :
  run (launch_aap_job Examples.repr_elided Examples.deploy_app)
    Examples.cfg_ok (Examples.world_one (JDict [])) =
    (inr (JDict [
       ("status", JStr "success");
       ("message", JStr "Successfully launched job template 'Deploy-App'.");
       ("job_id", JNull);
       ("aap_url", JStr "https://aap.example.com/#/jobs/playbook/None")]),
     [lookup_call "https://aap.example.com" "s3cr3t" "Deploy-App";
      launch_call "https://aap.example.com" "s3cr3t" "42" []]) /\
  run (launch_aap_job Examples.repr_elided Examples.deploy_app)
    Examples.cfg_ok (Examples.world_one (JDict [("job", JInt 101)])) =
    (inr (JDict [
       ("status", JStr "success");
       ("message", JStr "Successfully launched job template 'Deploy-App'.");
       ("job_id", JInt 101);
       ("aap_url", JStr "https://aap.example.com/#/jobs/playbook/101")]),
     [lookup_call "https://aap.example.com" "s3cr3t" "Deploy-App";
      launch_call "https://aap.example.com" "s3cr3t" "42" []]) /\
  Py.contains "/jobs/playbook/101"
    "https://aap.example.com/#/jobs/playbook/101" = true.
Proof.
  split; [|split].
  - destruct (C4_launch_success_job_field
                Examples.repr_elided Examples.cfg_ok
                (Examples.world_one (JDict []))
                "https://aap.example.com" "s3cr3t" Examples.deploy_app
                (JInt 42)
                [lookup_call "https://aap.example.com" "s3cr3t" "Deploy-App"]
                (Examples.reply 201 "Created" (JDict [])) [])
      as (job_id & aap_url & Hrun & _ & Hnone & _).
    + exact cfg_ok_configured.
    + reflexivity.
    + reflexivity.
    + split; reflexivity.
    + destruct (Hnone eq_refl) as [Hj Hu]. rewrite Hj, Hu in Hrun.
      exact Hrun.
  - destruct (C4_launch_success_job_field
                Examples.repr_elided Examples.cfg_ok
                (Examples.world_one (JDict [("job", JInt 101)]))
                "https://aap.example.com" "s3cr3t" Examples.deploy_app
                (JInt 42)
                [lookup_call "https://aap.example.com" "s3cr3t" "Deploy-App"]
                (Examples.reply 201 "Created" (JDict [("job", JInt 101)]))
                [("job", JInt 101)])
      as (job_id & aap_url & Hrun & _ & _ & Hint).
    + exact cfg_ok_configured.
    + reflexivity.
    + reflexivity.
    + split; reflexivity.
    + destruct (Hint 101 eq_refl) as (Hj & Hu & _). rewrite Hj, Hu in Hrun.
      exact Hrun.
  - reflexivity.
Defined.

(** C5: when the bearer token is unset (None) or empty, the launch endpoint
    fails with 500 "AAP_API_TOKEN is not configured." and makes no outbound
    call at all. *)
Theorem C5_unset_token_fails_before_any_call
    (repr_container : json -> string) (cfg : Config) (w : World)
    (job : AAPJob) :
  AAP_API_TOKEN cfg = None \/ AAP_API_TOKEN cfg = Some "" ->
  run (launch_aap_job repr_container job) cfg w =
    (inl (HTTPException 500 "AAP_API_TOKEN is not configured."), []).
Proof.
  intros H. apply not_unset in H.
  unfold run, launch_aap_job. unfold bind at 1. unfold global at 1.
  rewrite H. reflexivity.
Qed.

Lemma C5_witness :
  run (launch_aap_job Examples.repr_elided Examples.deploy_app)
    Examples.cfg_unset (Examples.world_one (JDict [("job", JInt 101)])) =
    (inl (HTTPException 500 "AAP_API_TOKEN is not configured."), []).
Proof.
  apply (C5_unset_token_fails_before_any_call
           Examples.repr_elided Examples.cfg_unset
           (Examples.world_one (JDict [("job", JInt 101)]))
           Examples.deploy_app).
  left. reflexivity.
Defined.

(** C6: when the lookup response has count 0, resolution fails with 404 and
    a detail that quotes the requested name; the launch endpoint fails with
    the very same exception and makes no launch call. *)
Theorem C6_no_match_not_found_propagated
    (repr_container : json -> string) (cfg : Config) (w : World)
    (base token : string) (job : AAPJob) (data : json) :
  configured cfg base token ->
  lookup_answers w base token (job_template_name job) data ->
  Py.getitem data "count" = inr (JInt 0) ->
  let detail :=
    "Not Found: No job template found with name '"
    ++ job_template_name job ++ "'." in
  get_job_template_id (job_template_name job) (launch_headers (Some token))
    cfg w [] =
    (inl (HTTPException 404 detail),
     [lookup_call base token (job_template_name job)]) /\
  run (launch_aap_job repr_container job) cfg w =
    (inl (HTTPException 404 detail),
     [lookup_call base token (job_template_name job)]) /\
  existsb is_launch (snd (run (launch_aap_job repr_container job) cfg w))
    = false /\
  Py.contains (job_template_name job) detail = true.
Proof.
  intros Hcfg (r & Hw & Hr) Hc detail.
  assert (Hres :
    get_job_template_id (job_template_name job) (launch_headers (Some token))
      cfg w [] =
      (inl (HTTPException 404 detail),
       [lookup_call base token (job_template_name job)])).
  { apply (resolver_not_found cfg w base token Hcfg _ [] r data 0); auto.
    lia. }
  pose proof (launch_propagates repr_container cfg w base token Hcfg job _ _
                Hres) as Hrun.
  repeat split; [exact Hres | exact Hrun | rewrite Hrun; reflexivity |].
  apply contains_append.
Qed.

Lemma C6_witness :
  let detail := "Not Found: No job template found with name 'Deploy-App'." in
  get_job_template_id "Deploy-App" (launch_headers (Some "s3cr3t"))
    Examples.cfg_ok (Examples.world_count 0) [] =
    (inl (HTTPException 404 detail),
     [lookup_call "https://aap.example.com" "s3cr3t" "Deploy-App"]) /\
  run (launch_aap_job Examples.repr_elided Examples.deploy_app)
    Examples.cfg_ok (Examples.world_count 0) =
    (inl (HTTPException 404 detail),
     [lookup_call "https://aap.example.com" "s3cr3t" "Deploy-App"]) /\
  existsb is_launch
    (snd (run (launch_aap_job Examples.repr_elided Examples.deploy_app)
            Examples.cfg_ok (Examples.world_count 0))) = false /\
  Py.contains "Deploy-App" detail = true.
Proof.
  apply (C6_no_match_not_found_propagated
           Examples.repr_elided Examples.cfg_ok (Examples.world_count 0)
           "https://aap.example.com" "s3cr3t" Examples.deploy_app
           (Examples.matches 0)).
  - exact cfg_ok_configured.
  - exists (Examples.reply 200 "OK" (Examples.matches 0)).
    repeat split; reflexivity.
  - reflexivity.
Defined.

(** C7: when the cluster rejects the create call with an ApiException,
    [create_vm] fails with an HTTPException whose status code is the remote
    status and whose detail ends with the remote reason, verbatim. *)
Theorem C7_rejected_create_surfaces_status_and_reason
    (vm : VirtualMachine) (cfg : Config) (w : World)
    (status : Z) (reason : string) :
  k8s w [] (create_call vm) = Rejected status reason ->
  let detail :=
    "Kubernetes API Error: Failed to create VM. Reason: " ++ reason in
  run (create_vm vm) cfg w =
    (inl (HTTPException status detail), [create_call vm]) /\
  Py.contains reason detail = true.
Proof.
  intros Hw detail. split.
  - unfold_py. fold (create_call vm). rewrite Hw. reflexivity.
  - apply contains_suffix.
Qed.

Lemma C7_witness :
  run (create_vm Examples.test_vm) Examples.cfg_ok Examples.world_conflict =
    (inl (HTTPException 409
            "Kubernetes API Error: Failed to create VM. Reason: AlreadyExists"),
     [create_call Examples.test_vm]) /\
  Py.contains "AlreadyExists"
    "Kubernetes API Error: Failed to create VM. Reason: AlreadyExists" = true.
Proof.
  apply (C7_rejected_create_surfaces_status_and_reason
           Examples.test_vm Examples.cfg_ok Examples.world_conflict
           409 "AlreadyExists").
  reflexivity.
Defined.

(** C8, as amended: an outbound controller call that raises at the transport
    level, or that is answered with a 4xx or 5xx status, makes the operation
    fail with 503 and a detail that ends with the text of the underlying
    error.  This holds for the lookup (in the resolver and in the endpoint)
    and for the launch call. *)
Theorem C8_failed_controller_call_is_service_unavailable
    (repr_container : json -> string) (cfg : Config) (w : World)
    (base token : string) (job : AAPJob) (text : string) :
  configured cfg base token ->
  (call_fails w [] (lookup_call base token (job_template_name job)) text ->
   let detail :=
     "Service Unavailable: Could not connect to AAP. Error: " ++ text in
   get_job_template_id (job_template_name job) (launch_headers (Some token))
     cfg w [] =
     (inl (HTTPException 503 detail),
      [lookup_call base token (job_template_name job)]) /\
   run (launch_aap_job repr_container job) cfg w =
     (inl (HTTPException 503 detail),
      [lookup_call base token (job_template_name job)]) /\
   Py.contains text detail = true) /\
  (forall (id : json) (t : list call),
     get_job_template_id (job_template_name job) (launch_headers (Some token))
       cfg w [] = (inr id, t) ->
     call_fails w t
       (launch_call base token (Py.str repr_container id) (extra_vars job))
       text ->
     let detail :=
       "Service Unavailable: Failed to launch job in AAP. Error: " ++ text in
     run (launch_aap_job repr_container job) cfg w =
       (inl (HTTPException 503 detail),
        (t ++ [launch_call base token (Py.str repr_container id)
                 (extra_vars job)])%list) /\
     Py.contains text detail = true).
Proof.
  intros Hcfg. split.
  - intros Hfail detail.
    assert (Hres :
      get_job_template_id (job_template_name job)
        (launch_headers (Some token)) cfg w [] =
        (inl (HTTPException 503 detail),
         [lookup_call base token (job_template_name job)])).
    { destruct Hfail as [text Hw | r Hw Hs].
      - apply (resolver_transport_failure cfg w base token Hcfg _ _ [] Hw).
      - apply (resolver_status_failure cfg w base token Hcfg _ _ [] r Hw).
        apply raise_for_status_error, Hs. }
    repeat split.
    + exact Hres.
    + apply (launch_propagates repr_container cfg w base token Hcfg job _ _
               Hres).
    + apply contains_suffix.
  - intros id t Hres Hfail detail. split; [|apply contains_suffix].
    destruct Hfail as [text Hw | r Hw Hs].
    + apply (launch_transport_failure repr_container cfg w base token Hcfg
               job id t text Hres Hw).
    + apply (launch_status_failure repr_container cfg w base token Hcfg
               job id t r _ Hres Hw).
      apply raise_for_status_error, Hs.
Qed.

Lemma C8_witness :
  run (launch_aap_job Examples.repr_elided Examples.deploy_app)
    Examples.cfg_ok Examples.world_down =
    (inl (HTTPException 503
            "Service Unavailable: Could not connect to AAP. Error: Connection refused"),
     [lookup_call "https://aap.example.com" "s3cr3t" "Deploy-App"]) /\
  run (launch_aap_job Examples.repr_elided Examples.deploy_app)
    Examples.cfg_ok Examples.world_forbidden =
    (inl (HTTPException 503
            "Service Unavailable: Failed to launch job in AAP. Error: 403 Client Error: Forbidden for url: https://aap.example.com/"),
     [lookup_call "https://aap.example.com" "s3cr3t" "Deploy-App";
      launch_call "https://aap.example.com" "s3cr3t" "42" []]).
Proof.
  split.
  - destruct (C8_failed_controller_call_is_service_unavailable
                Examples.repr_elided Examples.cfg_ok Examples.world_down
                "https://aap.example.com" "s3cr3t" Examples.deploy_app
                "Connection refused" cfg_ok_configured)
      as [Hlookup _].
    destruct Hlookup as (_ & Hrun & _).
    + apply fails_transport. reflexivity.
    + exact Hrun.
  - destruct (C8_failed_controller_call_is_service_unavailable
                Examples.repr_elided Examples.cfg_ok Examples.world_forbidden
                "https://aap.example.com" "s3cr3t" Examples.deploy_app
                (http_error_msg (Examples.reply 403 "Forbidden" JNull))
                cfg_ok_configured)
      as [_ Hlaunch].
    destruct (Hlaunch (JInt 42)
                [lookup_call "https://aap.example.com" "s3cr3t" "Deploy-App"])
      as [Hrun _].
    + reflexivity.
    + apply fails_status; [reflexivity | simpl; lia].
    + exact Hrun.
Defined.

(** C8 as stated fails: a lookup answered with status 300, which is not a
    2xx status, does not make the operation fail with 503; the endpoint
    goes on to launch template 42 and returns success. *)
Lemma C8_counterexample :
  http Examples.world_300 []
    (lookup_call "https://aap.example.com" "s3cr3t" "Deploy-App") =
    Responds (Examples.reply 300 "Multiple Choices" (Examples.found 1 42)) /\
  ~ (200 <= status_code
              (Examples.reply 300 "Multiple Choices" (Examples.found 1 42))
     < 300) /\
  run (launch_aap_job Examples.repr_elided Examples.deploy_app)
    Examples.cfg_ok Examples.world_300 =
    (inr (JDict [
       ("status", JStr "success");
       ("message", JStr "Successfully launched job template 'Deploy-App'.");
       ("job_id", JInt 101);
       ("aap_url", JStr "https://aap.example.com/#/jobs/playbook/101")]),
     [lookup_call "https://aap.example.com" "s3cr3t" "Deploy-App";
      launch_call "https://aap.example.com" "s3cr3t" "42" []]) /\
  ~ exists detail,
      fst (run (launch_aap_job Examples.repr_elided Examples.deploy_app)
             Examples.cfg_ok Examples.world_300) =
        inl (HTTPException 503 detail).
Proof.
  split; [reflexivity|]. split; [simpl; lia|]. split; [reflexivity|].
  intros [detail H]. vm_compute in H. discriminate.
Qed.

(** C9: [create_vm] does not read the controller settings: under any two
    configurations it makes the same call and has the same outcome, and it
    never fails with one of the two "is not configured" errors. *)
Theorem C9_create_vm_independent_of_controller_settings
    (vm : VirtualMachine) (cfg1 cfg2 : Config) (w : World) :
  run (create_vm vm) cfg1 w = run (create_vm vm) cfg2 w /\
  fst (run (create_vm vm) cfg1 w) <>
    inl (HTTPException 500 "AAP_CONTROLLER_URL is not configured.") /\
  fst (run (create_vm vm) cfg1 w) <>
    inl (HTTPException 500 "AAP_API_TOKEN is not configured.").
Proof.
  split; [unfold_py; destruct (k8s w [] _); reflexivity|].
  unfold_py. destruct (k8s w [] _) as [obj|status rsn|name];
    split; cbn [fst]; intros H; try discriminate H;
    injection H as _ H; discriminate H.
Qed.

(** C10: no non-emptiness check is made locally.  With an empty template
    name the launch endpoint still makes the lookup call, with the empty
    string as the "name" query parameter, and resolution succeeds when the
    controller answers with a unique match.  With an empty vm_name or
    namespace [create_vm] still makes the create call, with the namespace as
    its scope and the name as the manifest's metadata.name, both unchanged,
    and it returns success when the cluster accepts the object. *)
Theorem C10_empty_strings_are_passed_through
    (repr_container : json -> string) (cfg : Config) (w : World)
    (base token : string) (job : AAPJob) (vm : VirtualMachine) :
  configured cfg base token ->
  job_template_name job = "" ->
  vm_name vm = "" \/ namespace vm = "" ->
  (exists res rest,
     run (launch_aap_job repr_container job) cfg w =
       (res,
        requests_get (base ++ "/api/v2/job_templates/")
          (launch_headers (Some token)) [("name", "")] false :: rest)) /\
  (forall data first id : json,
     lookup_answers w base token "" data ->
     Py.getitem data "count" = inr (JInt 1) ->
     Py.getitem data "results" = inr (JList [first]) ->
     Py.getitem first "id" = inr id ->
     get_job_template_id "" (launch_headers (Some token)) cfg w [] =
       (inr id, [lookup_call base token ""])) /\
  (exists res,
     run (create_vm vm) cfg w =
       (res,
        [create_namespaced_custom_object
           "kubevirt.io" "v1" (namespace vm) "virtualmachines"
           (vm_manifest vm)])) /\
  Py.path ["metadata"; "name"] (vm_manifest vm) = inr (JStr (vm_name vm)) /\
  (forall obj : json,
     k8s w [] (create_call vm) = Created obj ->
     fst (run (create_vm vm) cfg w) =
       inr (JDict [
         ("status", JStr "success");
         ("message",
          JStr ("VirtualMachine '" ++ vm_name vm
                ++ "' created successfully in namespace '" ++ namespace vm
                ++ "'."))])).
Proof.
  intros Hcfg Hname _. repeat split.
  - destruct (resolver_one_call cfg w base token Hcfg (job_template_name job)
                []) as [[e|id] Hres].
    + exists (inl e), [].
      rewrite (launch_propagates repr_container cfg w base token Hcfg job _ _
                 Hres).
      rewrite Hname. reflexivity.
    + destruct (launch_attempted repr_container cfg w base token Hcfg job _ _
                  Hres) as [res Hrun].
      exists res, [launch_call base token (Py.str repr_container id)
                     (extra_vars job)].
      rewrite Hrun, Hname. reflexivity.
  - intros data first id (r & Hw & Hr) Hc Hrs Hid.
    apply (resolver_unique cfg w base token Hcfg "" [] r data
             (JList [first]) first id); auto.
  - apply create_vm_one_call.
  - intros obj Hw. unfold_py. fold (create_call vm). rewrite Hw. reflexivity.
Qed.

Lemma C10_witness :
  (exists res rest,
     run (launch_aap_job Examples.repr_elided
            {| job_template_name := ""; extra_vars := [] |})
       Examples.cfg_ok (Examples.world_one (JDict [("job", JInt 101)])) =
       (res,
        requests_get "https://aap.example.com/api/v2/job_templates/"
          (launch_headers (Some "s3cr3t")) [("name", "")] false :: rest)) /\
  get_job_template_id "" (launch_headers (Some "s3cr3t")) Examples.cfg_ok
    (Examples.world_one (JDict [("job", JInt 101)])) [] =
    (inr (JInt 42), [lookup_call "https://aap.example.com" "s3cr3t" ""]) /\
  (exists res,
     run (create_vm {| vm_name := ""; namespace := "" |}) Examples.cfg_ok
       (Examples.world_one (JDict [("job", JInt 101)])) =
       (res,
        [create_namespaced_custom_object
           "kubevirt.io" "v1" "" "virtualmachines"
           (vm_manifest {| vm_name := ""; namespace := "" |})])) /\
  Py.path ["metadata"; "name"]
    (vm_manifest {| vm_name := ""; namespace := "" |}) = inr (JStr "") /\
  fst (run (create_vm {| vm_name := ""; namespace := "" |}) Examples.cfg_ok
         (Examples.world_one (JDict [("job", JInt 101)]))) =
    inr (JDict [
      ("status", JStr "success");
      ("message",
       JStr "VirtualMachine '' created successfully in namespace ''.")]).
Proof.
  destruct (C10_empty_strings_are_passed_through
              Examples.repr_elided Examples.cfg_ok
              (Examples.world_one (JDict [("job", JInt 101)]))
              "https://aap.example.com" "s3cr3t"
              {| job_template_name := ""; extra_vars := [] |}
              {| vm_name := ""; namespace := "" |})
    as (Hlaunch & Hresolve & Hcreate & Hmeta & Hok).
  - exact cfg_ok_configured.
  - reflexivity.
  - left. reflexivity.
  - split; [exact Hlaunch|]. split.
    + apply (Hresolve (Examples.found 1 42) (JDict [("id", JInt 42)])
               (JInt 42)).
      * exists (Examples.reply 200 "OK" (Examples.found 1 42)).
        repeat split; reflexivity.
      * reflexivity.
      * reflexivity.
      * reflexivity.
    + split; [exact Hcreate|]. split; [exact Hmeta|].
      apply (Hok JNull). reflexivity.
Defined.


(** ** Further properties of the endpoints *)

Lemma not_false_inv (x : option string) :
  Py.not_ x = false -> exists s, x = Some s /\ s <> "".
Proof.
  destruct x as [[|c s]|]; simpl; intros H; try discriminate.
  exists (String c s). split; [reflexivity | discriminate].
Qed.

Lemma raise_for_status_exn (r : Response) (e : exn) :
  raise_for_status r = inl e -> exists text, e = RequestException text.
Proof.
  unfold raise_for_status.
  destruct (_ && _); [intros [= <-]; eauto|].
  destruct (_ && _); [intros [= <-]; eauto | discriminate].
Qed.

Lemma Response_json_exn (r : Response) (e : exn) :
  Response_json r = inl e -> exists text, e = RequestException text.
Proof.
  unfold Response_json. destruct (body r); [intros [= <-]; eauto|discriminate].
Qed.

Lemma getitem_exn (x : json) (k : string) (e : exn) :
  Py.getitem x k = inl e -> e = KeyError \/ e = TypeError.
Proof.
  destruct x; simpl; try (intros [= <-]; auto).
  destruct (Py.lookup k d); [discriminate | intros [= <-]; auto].
Qed.

Lemma getitem0_exn (x : json) (e : exn) :
  Py.getitem0 x = inl e -> e = KeyError \/ e = IndexError \/ e = TypeError.
Proof.
  destruct x as [| | |s|l|d]; simpl; try (intros [= <-]; auto).
  - destruct s; [intros [= <-]; auto | discriminate].
  - destruct l; [intros [= <-]; auto | discriminate].
Qed.

Lemma gt_int_exn (x : json) (n : Z) (e : exn) :
  Py.gt_int x n = inl e -> e = TypeError.
Proof. destruct x; simpl; intros [= <-] || discriminate; reflexivity. Qed.

Lemma get_exn (x : json) (k : string) (e : exn) :
  Py.get x k = inl e -> e = AttributeError.
Proof.
  destruct x; simpl; try (intros [= <-]; reflexivity).
  destruct (Py.lookup k d); discriminate.
Qed.

Section Outcomes.

Variable repr_container : json -> string.
Variables (cfg : Config) (w : World) (base token : string).
Hypothesis Hcfg : configured cfg base token.

(** What the resolver can end with once the controller URL is set: an
    identifier, one of three HTTP errors, or an uncaught Python error. *)
Lemma resolver_outcome (name : string) (t : list call) :
  exists res,
    get_job_template_id name (launch_headers (Some token)) cfg w t =
      (res, (t ++ [lookup_call base token name])%list) /\
    match res with
    | inr _ => True
    | inl e =>
        (exists s d, e = HTTPException s d /\ (s = 503 \/ s = 409 \/ s = 404))
        \/ uncaught_python_error e
    end.
Proof.
  destruct Hcfg as (Hu & Hb & _ & _).
  unfold_py. rewrite Hu, (not_nonempty _ Hb).
  cbn [Py.format_opt]. fold (lookup_call base token name).
  destruct (http w t (lookup_call base token name)) as [r|text].
  2:{ eexists. split; [reflexivity|]. left. eauto 6. }
  destruct (raise_for_status r) as [e|[]] eqn:E1.
  { apply raise_for_status_exn in E1 as [text ->].
    eexists. split; [reflexivity|]. left. eauto 6. }
  destruct (Response_json r) as [e|data] eqn:E2.
  { apply Response_json_exn in E2 as [text ->].
    eexists. split; [reflexivity|]. left. eauto 6. }
  destruct (Py.getitem data "count") as [e|count] eqn:E3.
  { apply getitem_exn in E3.
    destruct E3 as [-> | ->]; (eexists; split; [reflexivity|]);
      right; unfold uncaught_python_error; auto. }
  destruct (Py.eq_int count 1).
  - destruct (Py.getitem data "results") as [e|results] eqn:E4.
    { apply getitem_exn in E4.
      destruct E4 as [-> | ->]; (eexists; split; [reflexivity|]);
        right; unfold uncaught_python_error; auto. }
    destruct (Py.getitem0 results) as [e|first] eqn:E5.
    { apply getitem0_exn in E5.
      destruct E5 as [-> | [-> | ->]]; (eexists; split; [reflexivity|]);
        right; unfold uncaught_python_error; auto. }
    destruct (Py.getitem first "id") as [e|id] eqn:E6.
    { apply getitem_exn in E6.
      destruct E6 as [-> | ->]; (eexists; split; [reflexivity|]);
        right; unfold uncaught_python_error; auto. }
    eexists. split; [reflexivity | exact I].
  - destruct (Py.gt_int count 1) as [e|[]] eqn:E7.
    + apply gt_int_exn in E7 as ->.
      eexists. split; [reflexivity|].
      right; unfold uncaught_python_error; auto.
    + eexists. split; [reflexivity|]. left. eauto 6.
    + eexists. split; [reflexivity|]. left. eauto 6.
Qed.

(** What the endpoint can end with after a successful resolution. *)
Lemma launch_outcome (job : AAPJob) (id : json) (t : list call) :
  get_job_template_id (job_template_name job) (launch_headers (Some token))
    cfg w [] = (inr id, t) ->
  exists res,
    run (launch_aap_job repr_container job) cfg w =
      (res,
       (t ++ [launch_call base token (Py.str repr_container id)
                (extra_vars job)])%list) /\
    match res with
    | inr v =>
        exists job_id,
          v = launch_result base job job_id (Py.str repr_container job_id)
    | inl e => (exists d, e = HTTPException 503 d) \/ e = AttributeError
    end.
Proof.
  intros Hres. destruct Hcfg as (Hu & Hb & Ht & Hk).
  unfold run, launch_aap_job. unfold bind at 1. unfold global at 1.
  rewrite Ht, (not_nonempty _ Hk). unfold bind at 1. rewrite Hres.
  unfold_py. rewrite Hu. cbn [Py.format_opt].
  fold (launch_call base token (Py.str repr_container id) (extra_vars job)).
  destruct (http w t _) as [r|text].
  2:{ eexists. split; [reflexivity|]. left. eauto. }
  destruct (raise_for_status r) as [e|[]] eqn:E1.
  { apply raise_for_status_exn in E1 as [text ->].
    eexists. split; [reflexivity|]. left. eauto. }
  destruct (Response_json r) as [e|job_data] eqn:E2.
  { apply Response_json_exn in E2 as [text ->].
    eexists. split; [reflexivity|]. left. eauto. }
  destruct (Py.get job_data "job") as [e|job_id] eqn:E3.
  { apply get_exn in E3 as ->.
    eexists. split; [reflexivity|]. right. reflexivity. }
  eexists. split; [reflexivity|]. exists job_id. reflexivity.
Qed.

End Outcomes.

(** The three situations of the configuration, as the endpoint tests them. *)
Lemma config_cases (cfg : Config) :
  Py.not_ (AAP_API_TOKEN cfg) = true \/
  (exists token, AAP_API_TOKEN cfg = Some token /\ token <> "" /\
                 Py.not_ (AAP_CONTROLLER_URL cfg) = true) \/
  (exists base token, configured cfg base token).
Proof.
  destruct (Py.not_ (AAP_API_TOKEN cfg)) eqn:Ht; [auto|].
  apply not_false_inv in Ht as (token & Ht & Hk). right.
  destruct (Py.not_ (AAP_CONTROLLER_URL cfg)) eqn:Hu; [left; eauto|].
  apply not_false_inv in Hu as (base & Hu & Hb). right.
  exists base, token. repeat split; assumption.
Qed.

(** Without a controller URL the resolver raises at once. *)
Lemma resolver_unconfigured (cfg : Config) (w : World) (name : string)
    (headers : dict_str) (t : list call) :
  Py.not_ (AAP_CONTROLLER_URL cfg) = true ->
  get_job_template_id name headers cfg w t =
    (inl (HTTPException 500 "AAP_CONTROLLER_URL is not configured."), t).
Proof. intros H. unfold_py. rewrite H. reflexivity. Qed.

Lemma launch_unconfigured_url (repr_container : json -> string)
    (cfg : Config) (w : World) (job : AAPJob) (token : string) :
  AAP_API_TOKEN cfg = Some token -> token <> "" ->
  Py.not_ (AAP_CONTROLLER_URL cfg) = true ->
  run (launch_aap_job repr_container job) cfg w =
    (inl (HTTPException 500 "AAP_CONTROLLER_URL is not configured."), []).
Proof.
  intros Ht Hk Hu. unfold run, launch_aap_job.
  unfold bind at 1. unfold global at 1. rewrite Ht, (not_nonempty _ Hk).
  unfold bind at 1. rewrite (resolver_unconfigured cfg w _ _ [] Hu).
  reflexivity.
Qed.

Lemma launch_unconfigured_token (repr_container : json -> string)
    (cfg : Config) (w : World) (job : AAPJob) :
  Py.not_ (AAP_API_TOKEN cfg) = true ->
  run (launch_aap_job repr_container job) cfg w =
    (inl (HTTPException 500 "AAP_API_TOKEN is not configured."), []).
Proof.
  intros H. unfold run, launch_aap_job. unfold bind at 1. unfold global at 1.
  rewrite H. reflexivity.
Qed.

(** X1: without a controller URL (unset or empty) the resolver raises 500
    "AAP_CONTROLLER_URL is not configured." without making a call, and so
    does the launch endpoint when only the token is set. *)
Theorem X1_unset_controller_url_fails_before_any_call
    (repr_container : json -> string) (cfg : Config) (w : World)
    (job : AAPJob) (token : string) :
  AAP_CONTROLLER_URL cfg = None \/ AAP_CONTROLLER_URL cfg = Some "" ->
  AAP_API_TOKEN cfg = Some token -> token <> "" ->
  (forall name headers t,
     get_job_template_id name headers cfg w t =
       (inl (HTTPException 500 "AAP_CONTROLLER_URL is not configured."), t)) /\
  run (launch_aap_job repr_container job) cfg w =
    (inl (HTTPException 500 "AAP_CONTROLLER_URL is not configured."), []).
Proof.
  intros Hu Ht Hk. apply not_unset in Hu. split.
  - intros name headers t. apply resolver_unconfigured, Hu.
  - apply (launch_unconfigured_url repr_container cfg w job token Ht Hk Hu).
Qed.

Lemma X1_witness :
  (forall name headers t,
     get_job_template_id name headers Examples.cfg_no_url
       (Examples.world_one JNull) t =
       (inl (HTTPException 500 "AAP_CONTROLLER_URL is not configured."), t)) /\
  run (launch_aap_job Examples.repr_elided Examples.deploy_app)
    Examples.cfg_no_url (Examples.world_one JNull) =
    (inl (HTTPException 500 "AAP_CONTROLLER_URL is not configured."), []).
Proof.
  apply (X1_unset_controller_url_fails_before_any_call
           Examples.repr_elided Examples.cfg_no_url (Examples.world_one JNull)
           Examples.deploy_app "s3cr3t").
  - left. reflexivity.
  - reflexivity.
  - discriminate.
Defined.

(** X2: a lookup response that passes [raise_for_status] but whose body the
    resolver cannot read (no "count", a count that is not a number, count 1
    without a first result with an "id") is not turned into an HTTP error:
    the Python error (KeyError, IndexError or TypeError) leaves the resolver
    and the endpoint as it is, after the lookup call only. *)
Theorem X2_malformed_lookup_body_raises_python_error
    (repr_container : json -> string) (cfg : Config) (w : World)
    (base token : string) (job : AAPJob) (data : json) (e : exn) :
  configured cfg base token ->
  lookup_answers w base token (job_template_name job) data ->
  malformed_lookup data e ->
  get_job_template_id (job_template_name job) (launch_headers (Some token))
    cfg w [] = (inl e, [lookup_call base token (job_template_name job)]) /\
  run (launch_aap_job repr_container job) cfg w =
    (inl e, [lookup_call base token (job_template_name job)]) /\
  (e = KeyError \/ e = IndexError \/ e = TypeError).
Proof.
  intros Hcfg (r & Hw & Hr & Hb') Hbad.
  assert (Hres :
    get_job_template_id (job_template_name job) (launch_headers (Some token))
      cfg w [] = (inl e, [lookup_call base token (job_template_name job)])
    /\ (e = KeyError \/ e = IndexError \/ e = TypeError)).
  { pose proof Hcfg as (Hu & Hb & _ & _).
    unfold_py. rewrite Hu, (not_nonempty _ Hb).
    cbn [Py.format_opt]. fold (lookup_call base token (job_template_name job)).
    unfold Response_json. rewrite Hw, Hr, Hb'.
    destruct Hbad as [e Hc | count Hc Hni Hnb | count e Hc H1 Hrs
                     | count results e Hc H1 Hrs Hf
                     | count results first e Hc H1 Hrs Hf Hid]; rewrite Hc.
    - apply getitem_exn in Hc. destruct Hc as [-> | ->]; auto.
    - destruct count as [| b | n | | |]; try (split; [reflexivity | auto]).
      + destruct (Hnb b eq_refl).
      + destruct (Hni n eq_refl).
    - rewrite H1, Hrs. apply getitem_exn in Hrs.
      destruct Hrs as [-> | ->]; auto.
    - rewrite H1, Hrs, Hf. apply getitem0_exn in Hf.
      destruct Hf as [-> | [-> | ->]]; auto.
    - rewrite H1, Hrs, Hf, Hid. apply getitem_exn in Hid.
      destruct Hid as [-> | ->]; auto. }
  destruct Hres as [Hres He]. repeat split; [exact Hres | | exact He].
  apply (launch_propagates repr_container cfg w base token Hcfg job _ _ Hres).
Qed.

Lemma X2_witness :
  (get_job_template_id "Deploy-App" (launch_headers (Some "s3cr3t"))
     Examples.cfg_ok (Examples.world_lookup (JDict []) JNull) [] =
     (inl KeyError,
      [lookup_call "https://aap.example.com" "s3cr3t" "Deploy-App"]) /\
   run (launch_aap_job Examples.repr_elided Examples.deploy_app)
     Examples.cfg_ok (Examples.world_lookup (JDict []) JNull) =
     (inl KeyError,
      [lookup_call "https://aap.example.com" "s3cr3t" "Deploy-App"]) /\
   (KeyError = KeyError \/ KeyError = IndexError \/ KeyError = TypeError)) /\
  (get_job_template_id "Deploy-App" (launch_headers (Some "s3cr3t"))
     Examples.cfg_ok
     (Examples.world_lookup
        (JDict [("count", JInt 1); ("results", JList [])]) JNull) [] =
     (inl IndexError,
      [lookup_call "https://aap.example.com" "s3cr3t" "Deploy-App"]) /\
   run (launch_aap_job Examples.repr_elided Examples.deploy_app)
     Examples.cfg_ok
     (Examples.world_lookup
        (JDict [("count", JInt 1); ("results", JList [])]) JNull) =
     (inl IndexError,
      [lookup_call "https://aap.example.com" "s3cr3t" "Deploy-App"]) /\
   (IndexError = KeyError \/ IndexError = IndexError \/
    IndexError = TypeError)).
Proof.
  split.
  - apply (X2_malformed_lookup_body_raises_python_error
             Examples.repr_elided Examples.cfg_ok
             (Examples.world_lookup (JDict []) JNull)
             "https://aap.example.com" "s3cr3t" Examples.deploy_app
             (JDict []) KeyError).
    + exact cfg_ok_configured.
    + exists (Examples.reply 200 "OK" (JDict [])). repeat split; reflexivity.
    + apply no_count. reflexivity.
  - apply (X2_malformed_lookup_body_raises_python_error
             Examples.repr_elided Examples.cfg_ok
             (Examples.world_lookup
                (JDict [("count", JInt 1); ("results", JList [])]) JNull)
             "https://aap.example.com" "s3cr3t" Examples.deploy_app
             (JDict [("count", JInt 1); ("results", JList [])]) IndexError).
    + exact cfg_ok_configured.
    + exists (Examples.reply 200 "OK"
                (JDict [("count", JInt 1); ("results", JList [])])).
      repeat split; reflexivity.
    + apply (no_first_result _ (JInt 1) (JList [])); reflexivity.
Defined.

(** X3: every integer count below 1, a negative one included, is reported
    like count 0: 404 quoting the name, from the resolver and from the
    endpoint, and the launch call is not made. *)
Theorem X3_count_below_one_is_not_found
    (repr_container : json -> string) (cfg : Config) (w : World)
    (base token : string) (job : AAPJob) (data : json) (count : Z) :
  configured cfg base token ->
  lookup_answers w base token (job_template_name job) data ->
  Py.getitem data "count" = inr (JInt count) ->
  count < 1 ->
  let failure :=
    (inl (HTTPException 404
            ("Not Found: No job template found with name '"
             ++ job_template_name job ++ "'.")) : result json,
     [lookup_call base token (job_template_name job)]) in
  get_job_template_id (job_template_name job) (launch_headers (Some token))
    cfg w [] = failure /\
  run (launch_aap_job repr_container job) cfg w = failure.
Proof.
  intros Hcfg (r & Hw & Hr) Hc Hn failure.
  assert (Hres :
    get_job_template_id (job_template_name job) (launch_headers (Some token))
      cfg w [] = failure).
  { apply (resolver_not_found cfg w base token Hcfg _ [] r data count); auto. }
  split; [exact Hres|].
  apply (launch_propagates repr_container cfg w base token Hcfg job _ _ Hres).
Qed.

Lemma X3_witness :
  let failure :=
    (inl (HTTPException 404
            "Not Found: No job template found with name 'Deploy-App'.")
       : result json,
     [lookup_call "https://aap.example.com" "s3cr3t" "Deploy-App"]) in
  get_job_template_id "Deploy-App" (launch_headers (Some "s3cr3t"))
    Examples.cfg_ok (Examples.world_count (-3)) [] = failure /\
  run (launch_aap_job Examples.repr_elided Examples.deploy_app)
    Examples.cfg_ok (Examples.world_count (-3)) = failure.
Proof.
  apply (X3_count_below_one_is_not_found
           Examples.repr_elided Examples.cfg_ok (Examples.world_count (-3))
           "https://aap.example.com" "s3cr3t" Examples.deploy_app
           (Examples.matches (-3)) (-3)).
  - exact cfg_ok_configured.
  - exists (Examples.reply 200 "OK" (Examples.matches (-3))).
    repeat split; reflexivity.
  - reflexivity.
  - lia.
Defined.

(** X4: whatever the configuration and the remote services, the launch
    endpoint makes no call, or the lookup GET alone, or the lookup GET
    followed by one launch POST; it never calls the cluster and never
    launches before looking up. *)
Theorem X4_launch_endpoint_calls_lookup_then_launch
    (repr_container : json -> string) (cfg : Config) (w : World)
    (job : AAPJob) :
  let t := snd (run (launch_aap_job repr_container job) cfg w) in
  t = [] \/
  (exists g, t = [g] /\ is_lookup g = true) \/
  (exists g p, t = [g; p] /\ is_lookup g = true /\ is_launch p = true).
Proof.
  intros t. subst t.
  destruct (config_cases cfg)
    as [Ht | [(token & Ht & Hk & Hu) | (base & token & Hcfg)]].
  - rewrite (launch_unconfigured_token repr_container cfg w job Ht). auto.
  - rewrite (launch_unconfigured_url repr_container cfg w job token Ht Hk Hu).
    auto.
  - destruct (resolver_one_call cfg w base token Hcfg (job_template_name job)
                []) as [[e|id] Hres].
    + rewrite (launch_propagates repr_container cfg w base token Hcfg job _ _
                 Hres).
      right. left. eexists. split; reflexivity.
    + destruct (launch_attempted repr_container cfg w base token Hcfg job _ _
                  Hres) as [res Hrun].
      rewrite Hrun. right. right. do 2 eexists. repeat split.
Qed.



(** X6: [create_vm] returns exactly when the cluster created the object,
    and then it returns the success confirmation that names the VM and the
    namespace; the object the cluster sends back is not looked at. *)
Theorem X6_create_vm_succeeds_iff_created
    (vm : VirtualMachine) (cfg : Config) (w : World) :
  ((exists v, fst (run (create_vm vm) cfg w) = inr v) <->
   (exists obj, k8s w [] (create_call vm) = Created obj)) /\
  (forall v, fst (run (create_vm vm) cfg w) = inr v -> v = create_result vm) /\
  Py.contains (vm_name vm)
    ("VirtualMachine '" ++ vm_name vm
     ++ "' created successfully in namespace '" ++ namespace vm ++ "'.")
    = true /\
  Py.contains (namespace vm)
    ("VirtualMachine '" ++ vm_name vm
     ++ "' created successfully in namespace '" ++ namespace vm ++ "'.")
    = true.
Proof.
  split; [|split; [|split]].
  - unfold_py. fold (create_call vm).
    destruct (k8s w [] (create_call vm)) as [obj|status rsn|name];
      cbn [fst]; split.
    + eauto.
    + eauto.
    + intros [v H]. discriminate.
    + intros [obj H]. discriminate.
    + intros [v H]. discriminate.
    + intros [obj H]. discriminate.
  - intros v. unfold_py. fold (create_call vm).
    destruct (k8s w [] (create_call vm)) as [obj|status rsn|name];
      cbn [fst]; intros H; try discriminate.
    injection H as <-. reflexivity.
  - apply contains_append.
  - apply contains_skip, contains_skip, contains_append.
Qed.

(** X7: [create_vm] raises an HTTPException only when the cluster raised an
    ApiException, and then with that status and reason; any other error of
    the cluster client leaves the endpoint as it is, not as an HTTP
    error. *)
Theorem X7_create_vm_translates_only_api_exceptions
    (vm : VirtualMachine) (cfg : Config) (w : World) :
  (forall status detail,
     fst (run (create_vm vm) cfg w) = inl (HTTPException status detail) ->
     exists reason,
       k8s w [] (create_call vm) = Rejected status reason /\
       detail = "Kubernetes API Error: Failed to create VM. Reason: "
                ++ reason) /\
  (forall name,
     k8s w [] (create_call vm) = Broken name ->
     run (create_vm vm) cfg w = (inl (OtherError name), [create_call vm])).
Proof.
  split.
  - intros status detail. unfold_py. fold (create_call vm).
    destruct (k8s w [] (create_call vm)) as [obj|status' rsn|name];
      cbn [fst]; intros H; try discriminate.
    injection H as <- <-. eauto.
  - intros name H. unfold_py. fold (create_call vm). rewrite H. reflexivity.
Qed.

(** X8: when the launch call is answered with a passing response whose JSON
    body is not an object, [job_data.get] raises AttributeError: the
    endpoint fails with that error, not with an HTTP error, although both
    outbound calls were made and the job was launched. *)
Theorem X8_launch_body_not_an_object_raises_attribute_error
    (repr_container : json -> string) (cfg : Config) (w : World)
    (base token : string) (job : AAPJob) (id : json) (t : list call)
    (r : Response) (job_data : json) :
  configured cfg base token ->
  get_job_template_id (job_template_name job) (launch_headers (Some token))
    cfg w [] = (inr id, t) ->
  http w t (launch_call base token (Py.str repr_container id)
              (extra_vars job)) = Responds r ->
  answers r job_data ->
  (forall fields, job_data <> JDict fields) ->
  run (launch_aap_job repr_container job) cfg w =
    (inl AttributeError,
     (t ++ [launch_call base token (Py.str repr_container id)
              (extra_vars job)])%list).
Proof.
  intros Hcfg Hres Hw [Hr Hb'] Hnd.
  pose proof Hcfg as (Hu & Hb & Ht & Hk).
  unfold run, launch_aap_job. unfold bind at 1. unfold global at 1.
  rewrite Ht, (not_nonempty _ Hk). unfold bind at 1. rewrite Hres.
  unfold_py. rewrite Hu. cbn [Py.format_opt].
  fold (launch_call base token (Py.str repr_container id) (extra_vars job)).
  unfold Response_json. rewrite Hw, Hr, Hb'.
  destruct job_data as [| | | | |fields]; try reflexivity.
  destruct (Hnd fields eq_refl).
Qed.

Lemma X8_witness :
  run (launch_aap_job Examples.repr_elided Examples.deploy_app)
    Examples.cfg_ok (Examples.world_one (JList [])) =
    (inl AttributeError,
     [lookup_call "https://aap.example.com" "s3cr3t" "Deploy-App";
      launch_call "https://aap.example.com" "s3cr3t" "42" []]).
Proof.
  apply (X8_launch_body_not_an_object_raises_attribute_error
           Examples.repr_elided Examples.cfg_ok
           (Examples.world_one (JList []))
           "https://aap.example.com" "s3cr3t" Examples.deploy_app
           (JInt 42)
           [lookup_call "https://aap.example.com" "s3cr3t" "Deploy-App"]
           (Examples.reply 201 "Created" (JList [])) (JList [])).
  - exact cfg_ok_configured.
  - reflexivity.
  - reflexivity.
  - split; reflexivity.
  - discriminate.
Defined.

(** X9: the resolver does not check that the identifier is an integer: with
    count 1 it returns whatever JSON value the first result has under "id",
    and the launch path is built from the text of that value, "None" for
    null and the string itself for a string. *)
Theorem X9_identifier_is_not_validated
    (repr_container : json -> string) (cfg : Config) (w : World)
    (base token : string) (job : AAPJob) (data results first id : json) :
  configured cfg base token ->
  lookup_answers w base token (job_template_name job) data ->
  Py.getitem data "count" = inr (JInt 1) ->
  Py.getitem data "results" = inr results ->
  Py.getitem0 results = inr first ->
  Py.getitem first "id" = inr id ->
  get_job_template_id (job_template_name job) (launch_headers (Some token))
    cfg w [] =
    (inr id, [lookup_call base token (job_template_name job)]) /\
  (exists res,
     run (launch_aap_job repr_container job) cfg w =
       (res,
        [lookup_call base token (job_template_name job);
         launch_call base token (Py.str repr_container id)
           (extra_vars job)])) /\
  (id = JNull -> Py.str repr_container id = "None") /\
  (forall s, id = JStr s -> Py.str repr_container id = s).
Proof.
  intros Hcfg (r & Hw & Hr) Hc Hrs Hf Hid.
  assert (Hres :
    get_job_template_id (job_template_name job) (launch_headers (Some token))
      cfg w [] =
      (inr id, [lookup_call base token (job_template_name job)])).
  { apply (resolver_unique cfg w base token Hcfg _ [] r data results first id);
      auto. }
  split; [exact Hres|]. split.
  - destruct (launch_attempted repr_container cfg w base token Hcfg job _ _
                Hres) as [res Hrun].
    exists res. exact Hrun.
  - split; [intros ->; reflexivity | intros s ->; reflexivity].
Qed.

Lemma X9_witness :
  get_job_template_id "Deploy-App" (launch_headers (Some "s3cr3t"))
    Examples.cfg_ok
    (Examples.world_lookup
       (JDict [("count", JInt 1); ("results", JList [JDict [("id", JNull)]])])
       (JDict [])) [] =
    (inr JNull, [lookup_call "https://aap.example.com" "s3cr3t" "Deploy-App"])
  /\
  exists res,
    run (launch_aap_job Examples.repr_elided Examples.deploy_app)
      Examples.cfg_ok
      (Examples.world_lookup
         (JDict [("count", JInt 1);
                 ("results", JList [JDict [("id", JNull)]])])
         (JDict [])) =
      (res,
       [lookup_call "https://aap.example.com" "s3cr3t" "Deploy-App";
        launch_call "https://aap.example.com" "s3cr3t" "None" []]).
Proof.
  destruct (X9_identifier_is_not_validated
              Examples.repr_elided Examples.cfg_ok
              (Examples.world_lookup
                 (JDict [("count", JInt 1);
                         ("results", JList [JDict [("id", JNull)]])])
                 (JDict []))
              "https://aap.example.com" "s3cr3t" Examples.deploy_app
              (JDict [("count", JInt 1);
                      ("results", JList [JDict [("id", JNull)]])])
              (JList [JDict [("id", JNull)]]) (JDict [("id", JNull)]) JNull)
    as (Hres & Hrun & _ & _).
  - exact cfg_ok_configured.
  - exists (Examples.reply 200 "OK"
              (JDict [("count", JInt 1);
                      ("results", JList [JDict [("id", JNull)]])])).
    repeat split; reflexivity.
  - reflexivity.
  - reflexivity.
  - reflexivity.
  - reflexivity.
  - split; [exact Hres | exact Hrun].
Defined.

(** X10: the only HTTP errors the launch endpoint raises have status 500,
    404, 409 or 503, under every configuration and whatever the controller
    answers. *)
Theorem X10_launch_endpoint_http_statuses
    (repr_container : json -> string) (cfg : Config) (w : World)
    (job : AAPJob) (status : Z) (detail : string) :
  fst (run (launch_aap_job repr_container job) cfg w) =
    inl (HTTPException status detail) ->
  status = 500 \/ status = 404 \/ status = 409 \/ status = 503.
Proof.
  destruct (config_cases cfg)
    as [Ht | [(token & Ht & Hk & Hu) | (base & token & Hcfg)]].
  - rewrite (launch_unconfigured_token repr_container cfg w job Ht).
    intros [= <- _]. auto.
  - rewrite (launch_unconfigured_url repr_container cfg w job token Ht Hk Hu).
    intros [= <- _]. auto.
  - destruct (resolver_outcome cfg w base token Hcfg (job_template_name job)
                []) as ([e|id] & Hres & Hkind).
    + rewrite (launch_propagates repr_container cfg w base token Hcfg job _ _
                 Hres).
      cbn [fst]. intros [= ->].
      destruct Hkind as [(s & d & [= -> ->] & Hs) | Hpy].
      * destruct Hs as [-> | [-> | ->]]; auto.
      * destruct Hpy as [H | [H | [H | H]]]; discriminate H.
    + destruct (launch_outcome repr_container cfg w base token Hcfg job id _
                  Hres) as ([e|v] & Hrun & Hend).
      * rewrite Hrun. cbn [fst]. intros [= ->].
        destruct Hend as [[d [= -> ->]] | H]; [auto | discriminate H].
      * rewrite Hrun. discriminate.
Qed.

Lemma X10_witness :
  fst (run (launch_aap_job Examples.repr_elided Examples.deploy_app)
         Examples.cfg_ok (Examples.world_count 3)) =
    inl (HTTPException 409
           "Conflict: Multiple job templates found with name 'Deploy-App'.") /\
  (409 = 500 \/ 409 = 404 \/ 409 = 409 \/ 409 = 503).
Proof.
  split; [reflexivity|].
  apply (X10_launch_endpoint_http_statuses
           Examples.repr_elided Examples.cfg_ok (Examples.world_count 3)
           Examples.deploy_app 409
           "Conflict: Multiple job templates found with name 'Deploy-App'.").
  reflexivity.
Defined.



(** X12: at start-up the kube-config file is tried exactly when the
    in-cluster configuration raises ConfigException; the module loads
    exactly when one of the two loaders that were tried succeeds, and it
    fails with "Could not configure kubernetes client" exactly when both
    raise ConfigException; an error of another kind is not caught. *)
Theorem X12_kubernetes_configuration_fallback
    (try_load : loader -> loader_outcome) :
  (In load_kube_config (snd (configure_kubernetes try_load)) <->
   try_load load_incluster_config = ConfigException) /\
  (fst (configure_kubernetes try_load) = inr tt <->
   try_load load_incluster_config = Loaded \/
   (try_load load_incluster_config = ConfigException /\
    try_load load_kube_config = Loaded)) /\
  (fst (configure_kubernetes try_load) =
     inl (Exception "Could not configure kubernetes client") <->
   try_load load_incluster_config = ConfigException /\
   try_load load_kube_config = ConfigException) /\
  (forall name,
     try_load load_incluster_config = LoaderError name ->
     configure_kubernetes try_load =
       (inl (Uncaught name), [load_incluster_config])).
Proof.
  unfold configure_kubernetes.
  destruct (try_load load_incluster_config) as [| |n1] eqn:E1;
    [| destruct (try_load load_kube_config) as [| |n2] eqn:E2 |];
    cbn [fst snd]; repeat split;
    try discriminate; try tauto; try (simpl; tauto);
    try (intros [H|H]; [discriminate H | destruct H; discriminate]);
    try (intros [H _]; discriminate H);
    try (intros [_ H]; discriminate H);
    try (simpl; intros [H|[H|[]]]; discriminate H);
    try (simpl; intros [H|[]]; discriminate H);
    try (intros n [= <-]; reflexivity).
Qed.
